(** * Store monitoring: uptime/downtime interpolation and report jobs

    A shallow embedding of [app/services/report_generator.py],
    [app/api/endpoints.py] and [app/models.py], with the properties of the
    metrics engine and of the report job life cycle.

    Conventions of the embedding.
    - A naive [datetime] is the number of microseconds since
      1970-01-01T00:00:00 (type [Z], no range limit); a [date] is a number of
      days since 1970-01-01; a [time] of day is a number of microseconds
      since midnight; a [timedelta] is a number of microseconds.
    - Python floats are exact rationals ([Qc]): [total_seconds() / 60] and
      the running sums are computed without rounding error.
    - A SQLAlchemy session is the [Database] it reads and writes: a table
      is the list of its rows, or a map from the primary key for [reports];
      a query is a filter of the list, [order_by] a sort on the key.
    - A raised exception is the [Raise] case of [result].
    - The tz database behind [pytz.timezone] is a parameter of the
      development. *)

From Stdlib Require Import ZArith QArith Qcanon Qround Lia.
From stdpp Require Import base numbers option list list_numbers sorting gmap strings.

Local Open Scope Z_scope.

(** ** Exceptions *)

Inductive exception : Type :=
  | UnknownTimeZoneError (name : string)
  | TypeError
  | IntegrityError
  | OSError.

Inductive result (A : Type) : Type :=
  | Ok (a : A)
  | Raise (e : exception).
Global Arguments Ok {A} a.
Global Arguments Raise {A} e.

Global Instance result_ret : MRet result := λ A a, Ok a.
Global Instance result_bind : MBind result := λ A B f m,
  match m with
  | Ok a => f a
  | Raise e => Raise e
  end.

Definition is_ok {A} (m : result A) : bool :=
  match m with Ok _ => true | Raise _ => false end.

(** ** [datetime], [date], [time], [timedelta] *)

Definition SECOND : Z := 1000000.
Definition MINUTE : Z := 60 * SECOND.
Definition HOUR : Z := 60 * MINUTE.
Definition DAY : Z := 24 * HOUR.
Definition WEEK : Z := 7 * DAY.

(** [datetime.time(h, m, s)] *)
Definition dt_time (h m s : Z) : Z := h * HOUR + m * MINUTE + s * SECOND.
(** [datetime.time.min] *)
Definition dt_time_min : Z := dt_time 0 0 0.
(** [datetime.combine(date, time)] *)
Definition combine (d t : Z) : Z := d * DAY + t.
(** [dt.date()] *)
Definition date_of (dt : Z) : Z := dt `div` DAY.
(** [d.weekday()]: 0 = Monday; 1970-01-01 was a Thursday. *)
Definition weekday (d : Z) : Z := (d + 3) `mod` 7.
(** [td.total_seconds()] *)
Definition total_seconds (td : Z) : Qc := (Qc_of_Z td / Qc_of_Z SECOND)%Qc.

(** ** Time zones

    A [tzinfo] gives the two things the code asks of a pytz zone:
    [utcoffset tz u] is the offset in force at the UTC instant [u], so that
    [u.astimezone(tz)] shows the wall clock [u + utcoffset tz u];
    [localize tz w] is the UTC instant of
    [tz.localize(w).astimezone(pytz.UTC)] for the naive wall clock [w]. *)

Record tzinfo : Type := {
  utcoffset : Z → Z;
  localize : Z → Z
}.

(** A zone with a constant offset from UTC, such as [UTC] or [Etc/GMT+6]. *)
Definition fixed_zone (off : Z) : tzinfo :=
  {| utcoffset := λ _, off; localize := λ w, w - off |}.

(** ** [app/models.py] *)

Record StoreStatus : Type := {
  ss_store_id : string;
  timestamp_utc : Z;
  status : string
}.

Record BusinessHours : Type := {
  bh_store_id : string;
  day_of_week : Z;
  start_time_local : Z;
  end_time_local : Z
}.

Record StoreTimezone : Type := {
  tz_store_id : string;
  timezone_str : string
}.

(** A row of [reports]; the primary key [id] is the key of the table. *)
Record Report : Type := {
  report_status : string;
  file_path : option string
}.

Record Database : Type := {
  store_status : list StoreStatus;
  business_hours : list BusinessHours;
  store_timezone : list StoreTimezone;
  reports : gmap string Report
}.

(** [app/schemas.py], [StoreStatusResponse]: one row of the report. *)
Record Metrics : Type := {
  store_id : string;
  uptime_last_hour : Qc;
  uptime_last_day : Qc;
  uptime_last_week : Qc;
  downtime_last_hour : Qc;
  downtime_last_day : Qc;
  downtime_last_week : Qc
}.

(** The written CSV artifact: the header and the data rows. *)
Record CsvFile : Type := {
  fieldnames : list string;
  data_rows : list Metrics
}.

(** ** [ReportGeneratorService] *)

(** [func.max(StoreStatus.timestamp_utc)]: [None] on an empty table. *)
Definition get_max_timestamp (db : Database) : option Z :=
  match timestamp_utc <$> store_status db with
  | [] => None
  | t :: ts => Some (foldl Z.max t ts)
  end.

Definition get_store_timezone (db : Database) (sid : string) : string :=
  match filter (λ r, tz_store_id r = sid) (store_timezone db) with
  | timezone_data :: _ => timezone_str timezone_data
  | [] => "America/Chicago"%string
  end.

(** The default of [get_business_hours]: 00:00:00 to 23:59:59 on days 0..6. *)
Definition full_day : Z * Z := (dt_time 0 0 0, dt_time 23 59 59).
Definition default_hours : gmap Z (Z * Z) :=
  list_to_map ((λ i, (i, full_day)) <$> seqZ 0 7).

Definition get_business_hours (db : Database) (sid : string) : gmap Z (Z * Z) :=
  let rows := filter (λ r, bh_store_id r = sid) (business_hours db) in
  match rows with
  | [] => default_hours
  | _ =>
    foldl (λ hours_dict bh,
             <[day_of_week bh := (start_time_local bh, end_time_local bh)]> hours_dict)
          ∅ rows
  end.

(** [order_by(StoreStatus.timestamp_utc)] *)
Definition by_timestamp (a b : StoreStatus) : Prop :=
  timestamp_utc a ≤ timestamp_utc b.
Global Instance by_timestamp_dec : RelDecision by_timestamp.
Proof. intros a b. unfold by_timestamp. apply _. Defined.

(** Minutes as the code computes them: [td.total_seconds() / 60]. *)
Definition minutes_of (td : Z) : Qc := (total_seconds td / Qc_of_Z 60)%Qc.

(** [if last_status == 'active': total_uptime_minutes += duration
     else: total_downtime_minutes += duration], on the pair
    (uptime, downtime). *)
Definition attribute (last_status : string) (duration : Qc) (totals : Qc * Qc)
  : Qc * Qc :=
  if decide (last_status = "active"%string)
  then ((totals.1 + duration)%Qc, totals.2)
  else (totals.1, (totals.2 + duration)%Qc).

(** One turn of [for record in day_records], on
    (last_timestamp, last_status, totals). *)
Definition record_step (st : Z * string * (Qc * Qc)) (record : StoreStatus)
  : Z * string * (Qc * Qc) :=
  let '(last_timestamp, last_status, totals) := st in
  let duration := minutes_of (timestamp_utc record - last_timestamp) in
  (timestamp_utc record, status record, attribute last_status duration totals).

(** The [else] branch of lines 165-187: the walk over a non-empty
    [day_records] and the remaining time until [period_end]. *)
Definition interpolate_records (period_start period_end : Z)
    (day_records : list StoreStatus) (totals : Qc * Qc) : Qc * Qc :=
  let '(last_timestamp, last_status, totals) :=
    foldl record_step (period_start, "inactive"%string, totals) day_records in
  let remaining_duration := minutes_of (period_end - last_timestamp) in
  attribute last_status remaining_duration totals.

(** Lines 157-187: the records of the clipped period, then either branch. *)
Definition account_period (period_start period_end : Z)
    (status_records : list StoreStatus) (totals : Qc * Qc) : Qc * Qc :=
  let day_records :=
    filter (λ r, period_start ≤ timestamp_utc r ∧ timestamp_utc r ≤ period_end)
           status_records in
  match day_records with
  | [] =>
    let duration := minutes_of (period_end - period_start) in
    (totals.1, (totals.2 + duration)%Qc)
  | _ => interpolate_records period_start period_end day_records totals
  end.

(** The business window of a local date in UTC (lines 136-147). *)
Definition business_window (local_tz : tzinfo) (local_date bh_start bh_end : Z)
  : Z * Z :=
  let bh_start_dt := combine local_date bh_start in
  let bh_end_dt := combine local_date bh_end in
  let bh_end_dt := if decide (bh_end < bh_start) then bh_end_dt + DAY else bh_end_dt in
  (localize local_tz bh_start_dt, localize local_tz bh_end_dt).

Section WithTzDatabase.

(** [pytz.timezone(name)]: [None] stands for [UnknownTimeZoneError]. *)
Variable tzdb : string → option tzinfo.

Definition pytz_timezone (name : string) : result tzinfo :=
  match tzdb name with
  | Some tz => Ok tz
  | None => Raise (UnknownTimeZoneError name)
  end.

(** The wall clock of [utc_time.astimezone(local_tz)]; [utc_time] is naive
    and is first localized as UTC. *)
Definition convert_utc_to_local (utc_time : Z) (timezone_str : string) : result Z :=
  local_tz ← pytz_timezone timezone_str;
  mret (utc_time + utcoffset local_tz utc_time).

(** The body of [while current_date <= end_date] (lines 122-189), on the
    totals (uptime minutes, downtime minutes). *)
Definition process_day (start_time end_time : Z) (timezone_str : string)
    (business_hours : gmap Z (Z * Z)) (status_records : list StoreStatus)
    (totals : Qc * Qc) (current_date : Z) : result (Qc * Qc) :=
  let day_start := combine current_date dt_time_min in
  local_day_start ← convert_utc_to_local day_start timezone_str;
  let day_of_week := weekday (date_of local_day_start) in
  match business_hours !! day_of_week with
  | None => mret totals
  | Some (bh_start, bh_end) =>
    local_tz ← pytz_timezone timezone_str;
    let '(bh_start_utc, bh_end_utc) :=
      business_window local_tz (date_of local_day_start) bh_start bh_end in
    let period_start := Z.max start_time bh_start_utc in
    let period_end := Z.min end_time bh_end_utc in
    if decide (period_end ≤ period_start) then mret totals
    else mret (account_period period_start period_end status_records totals)
  end.

Fixpoint days_loop (start_time end_time : Z) (timezone_str : string)
    (business_hours : gmap Z (Z * Z)) (status_records : list StoreStatus)
    (dates : list Z) (totals : Qc * Qc) : result (Qc * Qc) :=
  match dates with
  | [] => mret totals
  | current_date :: dates =>
    totals ← process_day start_time end_time timezone_str business_hours
               status_records totals current_date;
    days_loop start_time end_time timezone_str business_hours status_records
              dates totals
  end.

(** The query of lines 102-108: the store's rows in the range, by time. *)
Definition query_status_records (db : Database) (sid : string)
    (start_time end_time : Z) : list StoreStatus :=
  merge_sort by_timestamp
    (filter (λ r, ss_store_id r = sid ∧
                  start_time ≤ timestamp_utc r ∧ timestamp_utc r ≤ end_time)
            (store_status db)).

Definition interpolate_status_for_period (db : Database) (sid : string)
    (start_time end_time : Z) (timezone_str : string)
    (business_hours : gmap Z (Z * Z)) : result (Qc * Qc) :=
  let status_records := query_status_records db sid start_time end_time in
  match status_records with
  | [] => mret (0%Qc, 0%Qc)
  | _ =>
    let current_date := date_of start_time in
    let end_date := date_of end_time in
    totals ← days_loop start_time end_time timezone_str business_hours
               status_records (seqZ current_date (end_date - current_date + 1))
               (0%Qc, 0%Qc);
    mret ((totals.1 / Qc_of_Z 60)%Qc, (totals.2 / Qc_of_Z 60)%Qc)
  end.

(** Python's [round(x, 2)] on the exact value: to the nearest multiple of
    1/100, a tie to the even one. *)
Definition round_half_even (x : Qc) : Z :=
  let f := Qfloor x in
  let r := (x - Qc_of_Z f)%Qc in
  let half := (1 / 2)%Qc in
  if decide (r < half)%Qc then f
  else if decide (half < r)%Qc then f + 1
  else if Z.even f then f else f + 1.

Definition round2 (x : Qc) : Qc :=
  (Qc_of_Z (round_half_even (x * Qc_of_Z 100)) / Qc_of_Z 100)%Qc.

(** [current_time] is [None] when [get_max_timestamp] found no row; the
    first subtraction then raises [TypeError]. *)
Definition calculate_store_metrics (db : Database) (sid : string)
    (current_time : option Z) : result Metrics :=
  let timezone_str := get_store_timezone db sid in
  let business_hours := get_business_hours db sid in
  current_time ← from_option Ok (Raise TypeError) current_time;
  let one_hour_ago := current_time - HOUR in
  let one_day_ago := current_time - DAY in
  let one_week_ago := current_time - WEEK in
  '(uptime_1h, downtime_1h) ←
    interpolate_status_for_period db sid one_hour_ago current_time
      timezone_str business_hours;
  '(uptime_1d, downtime_1d) ←
    interpolate_status_for_period db sid one_day_ago current_time
      timezone_str business_hours;
  '(uptime_1w, downtime_1w) ←
    interpolate_status_for_period db sid one_week_ago current_time
      timezone_str business_hours;
  mret {| store_id := sid;
          uptime_last_hour := round2 (uptime_1h * Qc_of_Z 60);
          uptime_last_day := round2 uptime_1d;
          uptime_last_week := round2 uptime_1w;
          downtime_last_hour := round2 (downtime_1h * Qc_of_Z 60);
          downtime_last_day := round2 downtime_1d;
          downtime_last_week := round2 downtime_1w |}.

(** ** The report job: state of the service

    [db] is the database, [files] the files under [reports/] by path, and
    [tasks] the background tasks added by [trigger_report] and not yet run. *)

Record World : Type := {
  db : Database;
  files : gmap string CsvFile;
  tasks : list string
}.

Definition set_reports (f : gmap string Report → gmap string Report)
    (d : Database) : Database :=
  {| store_status := store_status d;
     business_hours := business_hours d;
     store_timezone := store_timezone d;
     reports := f (reports d) |}.

Definition report_fieldnames : list string :=
  ["store_id"; "uptime_last_hour"; "uptime_last_day"; "uptime_last_week";
   "downtime_last_hour"; "downtime_last_day"; "downtime_last_week"]%string.

(** [os.path.join(self.reports_dir, f"{report_id}.csv")] *)
Definition csv_path (report_id : string) : string :=
  ("reports/" +:+ report_id +:+ ".csv")%string.

(** Lines 245-252: the loop over the stores with its [try]/[except]. *)
Definition collect_report_data (d : Database) (current_time : option Z)
    (store_ids : list string) : list Metrics :=
  foldl (λ report_data sid,
           match calculate_store_metrics d sid current_time with
           | Ok metrics => report_data ++ [metrics]
           | Raise _ => report_data
           end)
        [] store_ids.

(** [generate_report_async]. [io_ok] tells whether opening and writing the
    CSV file succeeds; when it does not, the [except] branch of line 272
    runs. A write that fails after [open] may leave [reports/<id>.csv]
    created or truncated; this file of a failed job is not modelled, the
    files are kept as they were, and no property speaks of it. The whole
    task is one step of the service. *)
Definition generate_report_async (io_ok : bool) (w : World) (report_id : string)
  : World :=
  match reports (db w) !! report_id with
  | None => w
  | Some report =>
    let current_time := get_max_timestamp (db w) in
    let store_ids := remove_dups (ss_store_id <$> store_status (db w)) in
    let report_data := collect_report_data (db w) current_time store_ids in
    let csv_file_path := csv_path report_id in
    if io_ok then
      {| db := set_reports
                 (<[report_id := {| report_status := "Complete";
                                    file_path := Some csv_file_path |}]>) (db w);
         files := <[csv_file_path := {| fieldnames := report_fieldnames;
                                        data_rows := report_data |}]> (files w);
         tasks := tasks w |}
    else
      {| db := set_reports
                 (<[report_id := {| report_status := "Failed";
                                    file_path := file_path report |}]>) (db w);
         files := files w;
         tasks := tasks w |}
  end.

(** ** [app/api/endpoints.py] *)

(** [trigger_report]; [uuid] is the value of [str(uuid.uuid4())]. The
    commit of a row whose primary key exists raises, before the task is
    added. *)
Definition trigger_report (uuid : string) (w : World) : result (World * string) :=
  let report_id := uuid in
  let report := {| report_status := "Running"; file_path := None |} in
  match reports (db w) !! report_id with
  | Some _ => Raise IntegrityError
  | None =>
    Ok ({| db := set_reports (<[report_id := report]>) (db w);
           files := files w;
           tasks := tasks w ++ [report_id] |}, report_id)
  end.

Inductive response : Type :=
  | StatusJson (s : string)
  | FileResponse (path media_type filename : string)
  | HTTPException (status_code : Z) (detail : string).

(** [report.file_path and os.path.exists(report.file_path)] *)
Definition artifact_on_disk (w : World) (report : Report) : option string :=
  match file_path report with
  | None => None
  | Some path =>
    if decide (path ≠ EmptyString ∧ is_Some (files w !! path))
    then Some path else None
  end.

Definition get_report (w : World) (report_id : string) : response :=
  match reports (db w) !! report_id with
  | None => HTTPException 404 "Report not found"
  | Some report =>
    if decide (report_status report = "Running"%string) then
      StatusJson "Running"
    else if decide (report_status report = "Complete"%string) then
      match artifact_on_disk w report with
      | Some path =>
        FileResponse path "text/csv"
          ("store_report_" +:+ report_id +:+ ".csv")%string
      | None => HTTPException 500 "Report file not found"
      end
    else HTTPException 500 "Report generation failed"
  end.

(** ** Runs of the service

    A step is a call of [trigger_report] that commits, or the run of one
    pending background task, or a call of [get_report]. *)

Definition take_task (pre post : list string) (w : World) : World :=
  {| db := db w; files := files w; tasks := pre ++ post |}.

Inductive step : World → World → Prop :=
  | step_trigger uuid w w' report_id :
      trigger_report uuid w = Ok (w', report_id) → step w w'
  | step_generate io_ok report_id pre post w :
      tasks w = pre ++ report_id :: post →
      step w (generate_report_async io_ok (take_task pre post w) report_id)
  | step_get_report report_id w r :
      get_report w report_id = r → step w w.

(** The service starts with no pending task; its database may hold the
    report rows of earlier runs. *)
Definition initial (w : World) : Prop := tasks w = [].

Definition reachable (w : World) : Prop :=
  ∃ w0, initial w0 ∧ rtc step w0 w.

End WithTzDatabase.

(** ** Reference definitions, written from the specification *)

(** Component-wise sum of (uptime, downtime) pairs, and their total. *)
Definition pair_add (a b : Qc * Qc) : Qc * Qc :=
  ((a.1 + b.1)%Qc, (a.2 + b.2)%Qc).
Definition pair_sum (a : Qc * Qc) : Qc := (a.1 + a.2)%Qc.

(** The minutes [td] credited to a running state: uptime when it is
    ['active'], downtime otherwise. *)
Definition credit (running : string) (td : Z) : Qc * Qc :=
  if decide (running = "active"%string)
  then (minutes_of td, 0%Qc) else (0%Qc, minutes_of td).

(** Last observation carried forward, in the words of section 4.2 step 4:
    the time since the cursor goes to the running state, which then becomes
    the observation's status; after the last observation the time up to
    [period_end] goes to the running state. *)
Fixpoint spec_carry_forward (running : string) (cursor period_end : Z)
    (observations : list StoreStatus) : Qc * Qc :=
  match observations with
  | [] => credit running (period_end - cursor)
  | o :: observations =>
    pair_add (credit running (timestamp_utc o - cursor))
             (spec_carry_forward (status o) (timestamp_utc o) period_end
                                 observations)
  end.

(** The part of the business window of one local date that lies in the
    query range, in microseconds. *)
Definition spec_window_overlap (tz : tzinfo) (hours : gmap Z (Z * Z))
    (range_start range_end local_date : Z) : Z :=
  match hours !! weekday local_date with
  | None => 0
  | Some (bh_start, bh_end) =>
    let '(window_start, window_end) :=
      business_window tz local_date bh_start bh_end in
    Z.max 0 (Z.min range_end window_end - Z.max range_start window_start)
  end.

(** The business hours intersected with the query range: the windows of all
    local dates that can meet the range (a window starts on its date and
    ends by the end of the next one, and a zone is less than a day from
    UTC), each clipped to the range. *)
Definition spec_business_time (tz : tzinfo) (hours : gmap Z (Z * Z))
    (range_start range_end : Z) : Z :=
  foldr Z.add 0
    (spec_window_overlap tz hours range_start range_end <$>
       seqZ (date_of range_start - 2)
            (date_of range_end - date_of range_start + 5)).

(** ** Auxiliary definitions for the proofs *)

Definition nonneg_pair (a : Qc * Qc) : Prop := (0 ≤ a.1)%Qc ∧ (0 ≤ a.2)%Qc.

(** The value of a computation that did not raise. *)
Definition ok_value {A} (m : result A) : option A :=
  match m with Ok a => Some a | Raise _ => None end.

(** Every pending task belongs to a job that is still Running, and no job
    has two pending tasks. *)
Definition pending_running (w : World) : Prop :=
  NoDup (tasks w)
  ∧ ∀ report_id, report_id ∈ tasks w →
      ∃ report, reports (db w) !! report_id = Some report
                ∧ report_status report = "Running"%string.

(** What one step may do to the row of a job: create it Running, leave it
    as it is, or take it from Running to Complete, with the path of the
    written artifact, or from Running to Failed. *)
Definition job_transition (w w' : World) (report_id : string) : Prop :=
  match reports (db w) !! report_id with
  | None =>
    reports (db w') !! report_id = None
    ∨ reports (db w') !! report_id
      = Some {| report_status := "Running"; file_path := None |}
  | Some report =>
    reports (db w') !! report_id = Some report
    ∨ (report_status report = "Running"%string
       ∧ ((reports (db w') !! report_id
           = Some {| report_status := "Complete";
                     file_path := Some (csv_path report_id) |}
           ∧ is_Some (files w' !! csv_path report_id))
          ∨ reports (db w') !! report_id
            = Some {| report_status := "Failed";
                      file_path := file_path report |}))
  end.

(** A number with at most two decimal places. *)
Definition two_decimals (x : Qc) : Prop :=
  ∃ n : Z, x = (Qc_of_Z n / Qc_of_Z 100)%Qc.

(** The local date on which the loop looks up the business hours for the
    UTC date [current_date]: the date of the wall clock at 00:00 UTC. *)
Definition local_date_of (tz : tzinfo) (current_date : Z) : Z :=
  let day_start := combine current_date dt_time_min in
  date_of (day_start + utcoffset tz day_start).

(** The business time the loop accounts for: for each UTC date of the range,
    the window of the local date on which that UTC date begins, clipped to
    the range. *)
Definition visited_business_time (tz : tzinfo) (hours : gmap Z (Z * Z))
    (start_time end_time : Z) (dates : list Z) : Z :=
  foldr Z.add 0
    ((λ cd, spec_window_overlap tz hours start_time end_time
              (local_date_of tz cd)) <$> dates).

(** The totals after the loop body, once the zone is known. *)
Definition day_totals (tz : tzinfo) (start_time end_time : Z)
    (hours : gmap Z (Z * Z)) (status_records : list StoreStatus)
    (totals : Qc * Qc) (current_date : Z) : Qc * Qc :=
  match hours !! weekday (local_date_of tz current_date) with
  | None => totals
  | Some (bh_start, bh_end) =>
    let '(bh_start_utc, bh_end_utc) :=
      business_window tz (local_date_of tz current_date) bh_start bh_end in
    let period_start := Z.max start_time bh_start_utc in
    let period_end := Z.min end_time bh_end_utc in
    if decide (period_end ≤ period_start) then totals
    else account_period period_start period_end status_records totals
  end.

(** ** Sample data *)

Definition at_time (d h m s : Z) : Z := combine d (dt_time h m s).

(** 2023-01-25, a Wednesday. *)
Definition jan25 : Z := 19382.

(** A small tz database: two zones of constant offset. *)
Definition sample_tzdb (name : string) : option tzinfo :=
  if decide (name = "UTC"%string) then Some (fixed_zone 0)
  else if decide (name = "Etc/GMT+6"%string) then Some (fixed_zone (-6 * HOUR))
  else None.

Definition observation (sid : string) (t : Z) (st : string) : StoreStatus :=
  {| ss_store_id := sid; timestamp_utc := t; status := st |}.
Definition hours_row (sid : string) (d s e : Z) : BusinessHours :=
  {| bh_store_id := sid; day_of_week := d;
     start_time_local := s; end_time_local := e |}.
Definition zone_row (sid name : string) : StoreTimezone :=
  {| tz_store_id := sid; timezone_str := name |}.

(** Three stores, always open; [north] is in UTC, [west] six hours behind,
    and the zone name of [lost] is not in the tz database. Each has one
    observation on 2023-01-25. *)
Definition sample_db : Database :=
  {| store_status :=
       [observation "north" (at_time jan25 17 43 22) "active";
        observation "west" (at_time jan25 17 43 22) "active";
        observation "lost" (at_time jan25 18 13 22) "inactive"];
     business_hours := [];
     store_timezone :=
       [zone_row "north" "UTC"; zone_row "west" "Etc/GMT+6";
        zone_row "lost" "Mars/Olympus"];
     reports := ∅ |}.

(** A store open overnight on Wednesdays only, 22:00 to 02:00, in UTC. *)
Definition night_db : Database :=
  {| store_status :=
       [observation "bar" (at_time jan25 23 0 0) "active";
        observation "bar" (at_time (jan25 + 1) 1 0 0) "inactive"];
     business_hours := [hours_row "bar" 2 (dt_time 22 0 0) (dt_time 2 0 0)];
     store_timezone := [zone_row "bar" "UTC"];
     reports := ∅ |}.

(** Two stores in UTC, always open: [calm] was last seen in the morning,
    [busy] gives the latest timestamp of the data, 18:13:22. *)
Definition quiet_db : Database :=
  {| store_status :=
       [observation "calm" (at_time jan25 9 0 0) "active";
        observation "busy" (at_time jan25 18 13 22) "active"];
     business_hours := [];
     store_timezone := [zone_row "calm" "UTC"; zone_row "busy" "UTC"];
     reports := ∅ |}.

(** The service before any report is asked for, after the call of
    [trigger_report] that draws the id [job-1], and with a row that says
    Complete while no file is on disk. *)
Definition sample_world : World :=
  {| db := sample_db; files := ∅; tasks := [] |}.

Definition running_job : Report :=
  {| report_status := "Running"; file_path := None |}.

Definition triggered_world : World :=
  {| db := set_reports (<["job-1"%string := running_job]>) sample_db;
     files := ∅;
     tasks := ["job-1"%string] |}.

Definition orphan_world : World :=
  {| db := set_reports
             (<["job-1"%string := {| report_status := "Complete";
                                     file_path := Some (csv_path "job-1") |}]>)
             sample_db;
     files := ∅;
     tasks := [] |}.

(** ** Further methods of the service *)

(** [t.hour] and [t.minute] of a time of day, and [dt.time()]. *)
Definition time_hour (t : Z) : Z := t `div` HOUR.
Definition time_minute (t : Z) : Z := (t `mod` HOUR) `div` MINUTE.
Definition time_of (dt : Z) : Z := dt `mod` DAY.

(** [is_within_business_hours]; [local_time] is the wall clock of the
    aware local datetime. *)
Definition is_within_business_hours (local_time : Z)
    (business_hours : gmap Z (Z * Z)) : bool :=
  let day_of_week := weekday (date_of local_time) in
  match business_hours !! day_of_week with
  | None => false
  | Some (start_time, end_time) =>
    let current_time := time_of local_time in
    if decide (start_time ≤ end_time)
    then bool_decide (start_time ≤ current_time ∧ current_time ≤ end_time)
    else bool_decide (start_time ≤ current_time ∨ current_time ≤ end_time)
  end.

(** [get_business_hours_duration], in hours. *)
Definition get_business_hours_duration (business_hours : gmap Z (Z * Z))
    (day_of_week : Z) : Qc :=
  match business_hours !! day_of_week with
  | None => 0%Qc
  | Some (start_time, end_time) =>
    let start_minutes := time_hour start_time * 60 + time_minute start_time in
    let end_minutes := time_hour end_time * 60 + time_minute end_time in
    let duration_minutes :=
      if decide (start_minutes ≤ end_minutes)
      then end_minutes - start_minutes
      else 24 * 60 - start_minutes + end_minutes in
    (Qc_of_Z duration_minutes / Qc_of_Z 60)%Qc
  end.

(** ** [DataIngestionService.find_csv_file]

    [disk] is the set of the paths that exist; the candidate names are
    relative, so that [os.path.join("data", name)] is [data/<name>]. *)
Fixpoint find_csv_file (disk : gset string) (possible_names : list string)
  : option string :=
  match possible_names with
  | [] => None
  | name :: possible_names =>
    let path := ("data/" +:+ name)%string in
    if decide (path ∈ disk) then Some path
    else find_csv_file disk possible_names
  end.

(** ** Auxiliary definitions for the further properties *)

(** Every window opens and closes on the same day: 0 <= start <= end < 24h. *)
Definition same_day_hours (hours : gmap Z (Z * Z)) : Prop :=
  ∀ day bh_start bh_end,
    hours !! day = Some (bh_start, bh_end) →
    0 ≤ bh_start ∧ bh_start ≤ bh_end ∧ bh_end < DAY.

(** The record of a store without any attributed time. *)
Definition zero_metrics (sid : string) : Metrics :=
  {| store_id := sid;
     uptime_last_hour := 0%Qc; uptime_last_day := 0%Qc;
     uptime_last_week := 0%Qc;
     downtime_last_hour := 0%Qc; downtime_last_day := 0%Qc;
     downtime_last_week := 0%Qc |}.

(** The state of each job in a run that began with an empty [reports]
    table: Running with its task pending, or Complete with its file written,
    or Failed. *)
Definition job_consistent (w : World) : Prop :=
  ∀ report_id report,
    reports (db w) !! report_id = Some report →
    (report_status report = "Running"%string ∧ file_path report = None
     ∧ report_id ∈ tasks w)
    ∨ (report_status report = "Complete"%string
       ∧ file_path report = Some (csv_path report_id)
       ∧ is_Some (files w !! csv_path report_id)
       ∧ report_id ∉ tasks w)
    ∨ (report_status report = "Failed"%string ∧ file_path report = None
       ∧ report_id ∉ tasks w).

Definition fresh_run (tzdb : string → option tzinfo) (w : World) : Prop :=
  ∃ w0, tasks w0 = [] ∧ reports (db w0) = ∅ ∧ rtc (step tzdb) w0 w.

(** ** Further sample data *)

(** Open on Wednesdays only, from 22:00 to 02:00. *)
Definition night_hours : gmap Z (Z * Z) :=
  {[ 2 := (dt_time 22 0 0, dt_time 2 0 0) ]}.

(** * Properties *)

(** ** Arithmetic of durations *)

Lemma minutes_of_add (a b : Z) :
  minutes_of (a + b) = (minutes_of a + minutes_of b)%Qc.
Proof.
  unfold minutes_of, total_seconds. rewrite Z2Qc_inj_add.
  unfold Qcdiv. ring.
Qed.

Lemma minutes_of_0 : minutes_of 0 = 0%Qc.
Proof. by apply Qc_is_canon. Qed.

Lemma minutes_of_nonneg (a : Z) : 0 ≤ a → (0 ≤ minutes_of a)%Qc.
Proof.
  intros Ha. unfold minutes_of, total_seconds, Qcdiv.
  apply Qcmult_nonneg_nonneg; [apply Qcmult_nonneg_nonneg|].
  - apply (Z2Qc_inj_le 0 a) in Ha. by rewrite Z2Qc_inj_0 in Ha.
  - by vm_compute.
  - by vm_compute.
Qed.

Lemma minutes_of_split (a b c : Z) :
  (minutes_of (b - a) + minutes_of (c - b))%Qc = minutes_of (c - a).
Proof. rewrite <- minutes_of_add. f_equal. lia. Qed.

Lemma pair_add_assoc (a b c : Qc * Qc) :
  pair_add (pair_add a b) c = pair_add a (pair_add b c).
Proof. unfold pair_add; simpl. f_equal; ring. Qed.

Lemma pair_sum_add (a b : Qc * Qc) :
  pair_sum (pair_add a b) = (pair_sum a + pair_sum b)%Qc.
Proof. unfold pair_sum, pair_add; simpl. ring. Qed.

Lemma attribute_credit (st : string) (td : Z) (totals : Qc * Qc) :
  attribute st (minutes_of td) totals = pair_add totals (credit st td).
Proof.
  unfold attribute, credit, pair_add.
  destruct (decide (st = "active"%string)); simpl; f_equal; ring.
Qed.

Lemma pair_sum_credit (st : string) (td : Z) :
  pair_sum (credit st td) = minutes_of td.
Proof.
  unfold credit, pair_sum.
  destruct (decide (st = "active"%string)); simpl; ring.
Qed.

(** ** The walk over the observations of a period *)

(** The loop of lines 170-187 from any loop state is the carried-forward
    attribution from that state. *)
Lemma walk_carry_forward (period_end : Z) (records : list StoreStatus) :
  ∀ (last_timestamp : Z) (last_status : string) (totals : Qc * Qc),
    (let '(ts, st, tot) :=
       foldl record_step (last_timestamp, last_status, totals) records in
     attribute st (minutes_of (period_end - ts)) tot)
    = pair_add totals
        (spec_carry_forward last_status last_timestamp period_end records).
Proof.
  induction records as [|r records IH]; intros ts st tot; simpl.
  - apply attribute_credit.
  - rewrite IH, attribute_credit. apply pair_add_assoc.
Qed.

Lemma interpolate_records_carry_forward (period_start period_end : Z)
    (day_records : list StoreStatus) (totals : Qc * Qc) :
  interpolate_records period_start period_end day_records totals
  = pair_add totals
      (spec_carry_forward "inactive" period_start period_end day_records).
Proof. unfold interpolate_records. apply walk_carry_forward. Qed.

(** Whatever the order of the observations, the time a walk attributes is
    the length of the period. *)
Lemma spec_carry_forward_total (period_end : Z) (records : list StoreStatus) :
  ∀ (running : string) (cursor : Z),
    pair_sum (spec_carry_forward running cursor period_end records)
    = minutes_of (period_end - cursor).
Proof.
  induction records as [|r records IH]; intros st ts; simpl.
  - apply pair_sum_credit.
  - rewrite pair_sum_add, pair_sum_credit, IH. apply minutes_of_split.
Qed.

Lemma account_period_total (period_start period_end : Z)
    (status_records : list StoreStatus) (totals : Qc * Qc) :
  pair_sum (account_period period_start period_end status_records totals)
  = (pair_sum totals + minutes_of (period_end - period_start))%Qc.
Proof.
  unfold account_period.
  destruct (filter _ status_records) as [|r rs] eqn:Hday.
  - unfold pair_sum; simpl. ring.
  - by rewrite interpolate_records_carry_forward, pair_sum_add,
      spec_carry_forward_total.
Qed.



(** ** Signs of the attributed durations *)

Lemma nonneg_pair_add (a b : Qc * Qc) :
  nonneg_pair a → nonneg_pair b → nonneg_pair (pair_add a b).
Proof.
  intros [Ha1 Ha2] [Hb1 Hb2].
  split; simpl; by apply Qcplus_nonneg_nonneg.
Qed.

Lemma nonneg_credit (st : string) (td : Z) : 0 ≤ td → nonneg_pair (credit st td).
Proof.
  intros Htd. apply minutes_of_nonneg in Htd. unfold credit.
  destruct (decide (st = "active"%string)); split; simpl; done.
Qed.

Global Instance by_timestamp_trans : Transitive by_timestamp.
Proof. unfold by_timestamp. intros a b c. lia. Qed.
Global Instance by_timestamp_total : Total by_timestamp.
Proof. unfold by_timestamp. intros a b. lia. Qed.

Lemma StronglySorted_filter {A} (R : relation A) (P : A → Prop)
    `{!∀ x, Decision (P x)} (l : list A) :
  StronglySorted R l → StronglySorted R (filter P l).
Proof.
  induction 1 as [|x l Hl IH Hx]; [constructor|].
  rewrite filter_cons. destruct (decide (P x)); [|done].
  constructor; [done|].
  eapply Forall_impl; [|done].
  apply Forall_forall. intros y Hy. rewrite Forall_forall in Hx.
  apply Hx. by apply list_elem_of_filter in Hy as [_ ?].
Qed.

(** Observations in time order between the cursor and the end of the
    period are credited non-negative durations only. *)
Lemma spec_carry_forward_nonneg (period_end : Z) (records : list StoreStatus) :
  ∀ (running : string) (cursor : Z),
    StronglySorted by_timestamp records →
    Forall (λ r, cursor ≤ timestamp_utc r ∧ timestamp_utc r ≤ period_end) records →
    cursor ≤ period_end →
    nonneg_pair (spec_carry_forward running cursor period_end records).
Proof.
  induction records as [|r records IH]; intros st ts Hsorted Hin Hle; simpl.
  - apply nonneg_credit. lia.
  - apply StronglySorted_cons in Hsorted as [Hhead Hsorted].
    apply Forall_cons in Hin as [[Hlo Hhi] Hin].
    apply nonneg_pair_add; [apply nonneg_credit; lia|].
    apply IH; [done| |done].
    rewrite Forall_forall in Hhead, Hin |- *. intros r' Hr'.
    specialize (Hhead r' Hr'). specialize (Hin r' Hr').
    unfold by_timestamp in Hhead. lia.
Qed.

Lemma account_period_nonneg (period_start period_end : Z)
    (status_records : list StoreStatus) (totals : Qc * Qc) :
  period_start ≤ period_end →
  StronglySorted by_timestamp status_records →
  nonneg_pair totals →
  nonneg_pair (account_period period_start period_end status_records totals).
Proof.
  intros Hle Hsorted Htotals. unfold account_period.
  destruct (filter _ status_records) as [|r rs] eqn:Hday.
  - destruct Htotals as [H1 H2]. split; simpl; [done|].
    apply Qcplus_nonneg_nonneg; [done|]. apply minutes_of_nonneg. lia.
  - rewrite interpolate_records_carry_forward.
    apply nonneg_pair_add; [done|].
    apply spec_carry_forward_nonneg; [| |done].
    + rewrite <- Hday. by apply StronglySorted_filter.
    + rewrite <- Hday. apply Forall_forall. intros r' Hr'.
      by apply list_elem_of_filter in Hr' as [? _].
Qed.

Section Signs.

Variable tzdb : string → option tzinfo.

Lemma process_day_known_zone (tz : tzinfo) (start_time end_time : Z)
    (timezone_str : string) (hours : gmap Z (Z * Z))
    (status_records : list StoreStatus) (totals : Qc * Qc) (current_date : Z) :
  tzdb timezone_str = Some tz →
  process_day tzdb start_time end_time timezone_str hours status_records
    totals current_date
  = Ok (day_totals tz start_time end_time hours status_records totals
          current_date).
Proof.
  intros Hzone.
  unfold process_day, convert_utc_to_local, pytz_timezone, day_totals,
    local_date_of.
  rewrite Hzone. cbn [mbind result_bind mret result_ret].
  destruct (hours !! _) as [[bh_start bh_end]|]; [|done].
  destruct (business_window _ _ _ _) as [ws we].
  by case_decide.
Qed.

Lemma day_totals_nonneg (tz : tzinfo) (start_time end_time : Z)
    (hours : gmap Z (Z * Z)) (status_records : list StoreStatus)
    (totals : Qc * Qc) (current_date : Z) :
  StronglySorted by_timestamp status_records →
  nonneg_pair totals →
  nonneg_pair (day_totals tz start_time end_time hours status_records totals
                 current_date).
Proof.
  intros Hsorted Htotals. unfold day_totals.
  destruct (hours !! _) as [[bh_start bh_end]|]; [|done].
  destruct (business_window _ _ _ _) as [ws we].
  case_decide as Hclip; [done|].
  apply account_period_nonneg; [lia|done|done].
Qed.

Lemma process_day_nonneg (start_time end_time : Z) (timezone_str : string)
    (hours : gmap Z (Z * Z)) (status_records : list StoreStatus)
    (totals totals' : Qc * Qc) (current_date : Z) :
  StronglySorted by_timestamp status_records →
  nonneg_pair totals →
  process_day tzdb start_time end_time timezone_str hours status_records
    totals current_date = Ok totals' →
  nonneg_pair totals'.
Proof.
  intros Hsorted Htotals.
  destruct (tzdb timezone_str) as [tz|] eqn:Hzone.
  - rewrite (process_day_known_zone tz) by done. intros [= <-].
    by apply day_totals_nonneg.
  - unfold process_day, convert_utc_to_local, pytz_timezone.
    by rewrite Hzone.
Qed.

Lemma days_loop_nonneg (start_time end_time : Z) (timezone_str : string)
    (hours : gmap Z (Z * Z)) (status_records : list StoreStatus)
    (dates : list Z) :
  ∀ totals totals',
    StronglySorted by_timestamp status_records →
    nonneg_pair totals →
    days_loop tzdb start_time end_time timezone_str hours status_records
      dates totals = Ok totals' →
    nonneg_pair totals'.
Proof.
  induction dates as [|d dates IH]; intros totals totals' Hsorted Htotals; simpl.
  - by intros [= <-].
  - destruct (process_day _ _ _ _ _ _ _ _) as [t|] eqn:Hday; simpl; [|done].
    apply IH; [done|]. by eapply process_day_nonneg.
Qed.

(** C9. Whatever the range, the zone and the business hours, both values
    returned by [interpolate_status_for_period], the uptime hours and the
    downtime hours, are non-negative. *)
Theorem interpolate_nonneg (d : Database) (sid : string)
    (start_time end_time : Z) (timezone_str : string)
    (hours : gmap Z (Z * Z)) (uptime downtime : Qc) :
  interpolate_status_for_period tzdb d sid start_time end_time timezone_str
    hours = Ok (uptime, downtime) →
  (0 ≤ uptime)%Qc ∧ (0 ≤ downtime)%Qc.
Proof.
  unfold interpolate_status_for_period.
  pose proof (StronglySorted_merge_sort by_timestamp
    (filter (λ r, ss_store_id r = sid ∧
                  start_time ≤ timestamp_utc r ∧ timestamp_utc r ≤ end_time)
            (store_status d))) as Hsorted.
  fold (query_status_records d sid start_time end_time) in Hsorted.
  destruct (query_status_records d sid start_time end_time) as [|r rs] eqn:Hq.
  - intros [= <- <-]. done.
  - destruct (days_loop _ _ _ _ _ _ _ _) as [[up down]|] eqn:Hloop; simpl; [|done].
    intros [= <- <-].
    apply days_loop_nonneg in Hloop as [Hup Hdown]; [|done|done].
    simpl in *. unfold Qcdiv.
    split; apply Qcmult_nonneg_nonneg; done || by vm_compute.
Qed.

End Signs.

Lemma interpolate_nonneg_witness :
  ∃ uptime downtime,
    interpolate_status_for_period sample_tzdb sample_db "north"
      (at_time jan25 17 13 22) (at_time jan25 18 13 22) "UTC" default_hours
    = Ok (uptime, downtime)
    ∧ (0 ≤ uptime)%Qc ∧ (0 ≤ downtime)%Qc.
Proof.
  destruct (interpolate_status_for_period sample_tzdb sample_db "north"
      (at_time jan25 17 13 22) (at_time jan25 18 13 22) "UTC" default_hours)
    as [[uptime downtime]|e] eqn:Hrun.
  - exists uptime, downtime. split; [done|].
    by apply (interpolate_nonneg sample_tzdb sample_db "north"
                (at_time jan25 17 13 22) (at_time jan25 18 13 22)
                "UTC"%string default_hours).
  - vm_compute in Hrun. discriminate.
Defined.

(** ** The range without observations, and the days the loop visits *)

(** Closed equations between computed rationals: evaluate, then compare the
    canonical fractions. *)
Ltac qc_eval :=
  vm_compute;
  repeat match goal with
         | |- @eq Qc _ _ => apply Qc_is_canon; reflexivity
         | |- _ => progress f_equal
         end.

Section NoRecords.

Variable tzdb : string → option tzinfo.

(** The early return of line 110. *)
Lemma interpolate_no_records (d : Database) (sid : string)
    (start_time end_time : Z) (timezone_str : string) (hours : gmap Z (Z * Z)) :
  query_status_records d sid start_time end_time = [] →
  interpolate_status_for_period tzdb d sid start_time end_time timezone_str
    hours = Ok (0%Qc, 0%Qc).
Proof. intros Hq. unfold interpolate_status_for_period. by rewrite Hq. Qed.

Lemma query_status_records_nil (d : Database) (sid : string)
    (start_time end_time : Z) :
  (∀ r, r ∈ store_status d → ss_store_id r = sid →
        ¬ (start_time ≤ timestamp_utc r ∧ timestamp_utc r ≤ end_time)) →
  query_status_records d sid start_time end_time = [].
Proof.
  intros Hnone. unfold query_status_records.
  assert (Hfilter : filter (λ r, ss_store_id r = sid ∧
                       start_time ≤ timestamp_utc r ∧ timestamp_utc r ≤ end_time)
                      (store_status d) = []).
  { apply elem_of_nil_inv. intros r Hr.
    apply list_elem_of_filter in Hr as [[Hsid Hin] Hr]. revert Hin.
    by apply (Hnone r). }
  by rewrite Hfilter.
Qed.

End NoRecords.

(** C1 (here the code departs from the claim). Store [calm] is always open
    and has no observation in the last hour before 18:13:22: the business
    hours in the range last one hour, all of it downtime by the claim, and
    [interpolate_status_for_period] returns no downtime at all, so that
    [calculate_store_metrics] reports 0 minutes of downtime. *)
Theorem no_observation_zero_downtime :
  get_max_timestamp quiet_db = Some (at_time jan25 18 13 22)
  ∧ query_status_records quiet_db "calm"
      (at_time jan25 18 13 22 - HOUR) (at_time jan25 18 13 22) = []
  ∧ spec_business_time (fixed_zone 0) (get_business_hours quiet_db "calm")
      (at_time jan25 18 13 22 - HOUR) (at_time jan25 18 13 22) = HOUR
  ∧ interpolate_status_for_period sample_tzdb quiet_db "calm"
      (at_time jan25 18 13 22 - HOUR) (at_time jan25 18 13 22) "UTC"
      (get_business_hours quiet_db "calm") = Ok (0%Qc, 0%Qc)
  ∧ downtime_last_hour <$>
      (match calculate_store_metrics sample_tzdb quiet_db "calm"
               (get_max_timestamp quiet_db) with
       | Ok m => Some m
       | Raise _ => None
       end) = Some 0%Qc.
Proof.
  split; [reflexivity|]. split; [reflexivity|]. split; [reflexivity|].
  split; [reflexivity|]. qc_eval.
Qed.

(** C2 (here the code departs from the claim). Store [west] is always open,
    six hours behind UTC, with an observation inside the last hour before
    18:13:22: the business hours in the range last one hour, and the uptime
    and downtime returned are both zero. The loop visits the UTC date of the
    range only, looks up the local date on which that UTC date begins, the
    day before, and the window of that local date ends before the range. *)
Theorem visited_days_miss_business_time :
  query_status_records sample_db "west"
      (at_time jan25 17 13 22) (at_time jan25 18 13 22)
    = [observation "west" (at_time jan25 17 43 22) "active"]
  ∧ spec_business_time (fixed_zone (-6 * HOUR)) default_hours
      (at_time jan25 17 13 22) (at_time jan25 18 13 22) = HOUR
  ∧ local_date_of (fixed_zone (-6 * HOUR)) jan25 = jan25 - 1
  ∧ business_window (fixed_zone (-6 * HOUR)) (jan25 - 1)
      (dt_time 0 0 0) (dt_time 23 59 59)
    = (at_time (jan25 - 1) 6 0 0, at_time jan25 5 59 59)
  ∧ visited_business_time (fixed_zone (-6 * HOUR)) default_hours
      (at_time jan25 17 13 22) (at_time jan25 18 13 22)
      (seqZ (date_of (at_time jan25 17 13 22)) 1) = 0
  ∧ interpolate_status_for_period sample_tzdb sample_db "west"
      (at_time jan25 17 13 22) (at_time jan25 18 13 22) "Etc/GMT+6"
      (get_business_hours sample_db "west") = Ok (0%Qc, 0%Qc).
Proof. repeat split; try reflexivity. qc_eval. Qed.

(** ** Business hours: the two fallbacks *)





(** ** The time attributed on a visited day *)

(** On each day it visits, the loop body adds to uptime and downtime
    together the part of that day's business window that lies in the
    range. *)
Lemma day_totals_total (tz : tzinfo) (start_time end_time : Z)
    (hours : gmap Z (Z * Z)) (status_records : list StoreStatus)
    (totals : Qc * Qc) (current_date : Z) :
  pair_sum (day_totals tz start_time end_time hours status_records totals
              current_date)
  = (pair_sum totals
     + minutes_of (spec_window_overlap tz hours start_time end_time
                     (local_date_of tz current_date)))%Qc.
Proof.
  unfold day_totals, spec_window_overlap.
  destruct (hours !! _) as [[bh_start bh_end]|].
  - destruct (business_window _ _ _ _) as [ws we]. case_decide as Hclip.
    + rewrite (Z.max_l 0) by lia. rewrite minutes_of_0. ring.
    + rewrite (Z.max_r 0) by lia. apply account_period_total.
  - rewrite minutes_of_0. ring.
Qed.

Lemma local_date_of_fixed_zone (off current_date i : Z) :
  local_date_of (fixed_zone off) (current_date + i)
  = local_date_of (fixed_zone off) current_date + i.
Proof.
  unfold local_date_of, combine, date_of; simpl.
  replace ((current_date + i) * DAY + dt_time_min + off)
    with (current_date * DAY + dt_time_min + off + i * DAY) by ring.
  by rewrite Z.div_add.
Qed.

Lemma weekday_recurs (d i : Z) :
  -6 ≤ i ≤ 6 → i ≠ 0 → weekday (d + i) ≠ weekday d.
Proof.
  unfold weekday. intros Hi Hne Heq.
  pose proof (Z.div_mod (d + i + 3) 7) as H1.
  pose proof (Z.div_mod (d + 3) 7) as H2.
  pose proof (Z.mod_pos_bound (d + i + 3) 7) as H3.
  pose proof (Z.mod_pos_bound (d + 3) 7) as H4.
  lia.
Qed.

Lemma overnight_business_window (tz : tzinfo) (local_date bh_start bh_end : Z) :
  bh_end < bh_start →
  business_window tz local_date bh_start bh_end
  = (localize tz (combine local_date bh_start),
     localize tz (combine (local_date + 1) bh_end)).
Proof.
  intros Hnight. unfold business_window. rewrite decide_True by done.
  do 2 f_equal. unfold combine. ring.
Qed.

Section Overnight.

Variable tzdb : string → option tzinfo.

(** Days on which the store is closed leave the totals as they are. *)
Lemma days_loop_closed (tz : tzinfo) (start_time end_time : Z)
    (timezone_str : string) (hours : gmap Z (Z * Z))
    (status_records : list StoreStatus) (totals : Qc * Qc) (dates : list Z) :
  tzdb timezone_str = Some tz →
  Forall (λ cd, hours !! weekday (local_date_of tz cd) = None) dates →
  days_loop tzdb start_time end_time timezone_str hours status_records dates
    totals = Ok totals.
Proof.
  intros Hzone. induction 1 as [|cd dates Hcd _ IH]; simpl; [done|].
  rewrite (process_day_known_zone tzdb tz) by done.
  cbn [mbind result_bind]. unfold day_totals. by rewrite Hcd.
Qed.

Lemma days_loop_app (start_time end_time : Z) (timezone_str : string)
    (hours : gmap Z (Z * Z)) (status_records : list StoreStatus)
    (dates1 dates2 : list Z) :
  ∀ totals,
    days_loop tzdb start_time end_time timezone_str hours status_records
      (dates1 ++ dates2) totals
    = days_loop tzdb start_time end_time timezone_str hours status_records
        dates1 totals
      ≫= days_loop tzdb start_time end_time timezone_str hours status_records
           dates2.
Proof.
  induction dates1 as [|cd dates1 IH]; intros totals; simpl; [done|].
  destruct (process_day _ _ _ _ _ _ _ _) as [t|]; simpl; [apply IH|done].
Qed.

(** With the zone known, the loop returns, and uptime and downtime together
    grow by the business time of the visited dates. *)
Lemma days_loop_total (tz : tzinfo) (start_time end_time : Z)
    (timezone_str : string) (hours : gmap Z (Z * Z))
    (status_records : list StoreStatus) (dates : list Z) :
  tzdb timezone_str = Some tz →
  ∀ totals, ∃ totals',
    days_loop tzdb start_time end_time timezone_str hours status_records
      dates totals = Ok totals'
    ∧ pair_sum totals'
      = (pair_sum totals
         + minutes_of (visited_business_time tz hours start_time end_time
                         dates))%Qc.
Proof.
  intros Hzone. unfold visited_business_time.
  induction dates as [|cd dates IH]; intros totals; simpl.
  - exists totals. split; [done|]. rewrite minutes_of_0. ring.
  - rewrite (process_day_known_zone tzdb tz) by done. cbn [mbind result_bind].
    destruct (IH (day_totals tz start_time end_time hours status_records
                    totals cd)) as (totals' & Hrun & Hsum).
    exists totals'. split; [done|].
    rewrite Hsum, day_totals_total, minutes_of_add.
    by rewrite Qcplus_assoc.
Qed.

(** What a call with a known zone and an observation in the range returns:
    uptime plus downtime is the business time of the visited dates. *)
Lemma interpolate_total (tz : tzinfo) (d : Database) (sid : string)
    (start_time end_time : Z) (timezone_str : string) (hours : gmap Z (Z * Z)) :
  tzdb timezone_str = Some tz →
  query_status_records d sid start_time end_time ≠ [] →
  ∃ uptime downtime,
    interpolate_status_for_period tzdb d sid start_time end_time timezone_str
      hours = Ok (uptime, downtime)
    ∧ (uptime + downtime)%Qc
      = (minutes_of
           (visited_business_time tz hours start_time end_time
              (seqZ (date_of start_time)
                    (date_of end_time - date_of start_time + 1)))
         / Qc_of_Z 60)%Qc.
Proof.
  intros Hzone Hrecords. unfold interpolate_status_for_period.
  destruct (query_status_records d sid start_time end_time) as [|r rs]; [done|].
  destruct (days_loop_total tz start_time end_time timezone_str hours (r :: rs)
              (seqZ (date_of start_time)
                    (date_of end_time - date_of start_time + 1))
              Hzone (0%Qc, 0%Qc)) as (totals & -> & Hsum).
  cbn [mbind result_bind]. eexists _, _. split; [reflexivity|]. cbn [fst snd].
  unfold pair_sum in Hsum. cbn [fst snd] in Hsum.
  unfold Qcdiv. rewrite <- Qcmult_plus_distr_l, Hsum. f_equal. ring.
Qed.

(** The UTC date on which the loop looks up a given local date, in a zone
    of constant offset, and its place among the dates of a range that
    covers the window of that local date. *)
Lemma visited_date_of_window (off start_time end_time local_date bh_start bh_end : Z) :
  0 ≤ bh_end → bh_start < DAY →
  start_time ≤ combine local_date bh_start - off →
  combine (local_date + 1) bh_end - off ≤ end_time →
  let cd := local_date - off `div` DAY in
  local_date_of (fixed_zone off) cd = local_date
  ∧ date_of start_time ≤ cd ≤ date_of end_time.
Proof.
  intros Hend Hstart Hlo Hhi cd.
  assert (HDAY : 0 < DAY) by done.
  pose proof (Z.div_mod off DAY ltac:(done)) as Hoff.
  pose proof (Z.mod_pos_bound off DAY HDAY) as Hmod.
  split.
  - unfold local_date_of, combine, date_of, dt_time_min, dt_time; simpl.
    unfold cd.
    match goal with
    | |- ?x `div` DAY = _ =>
      replace x with (off `mod` DAY + local_date * DAY) by lia
    end.
    rewrite Z.div_add by lia. rewrite Z.div_small by lia. lia.
  - unfold combine in Hlo, Hhi. unfold date_of. split.
    + apply Z.lt_succ_r, Z.div_lt_upper_bound; [done|]. unfold cd. lia.
    + apply Z.div_le_lower_bound; [done|]. unfold cd. lia.
Qed.

(** What holds of an overnight window. A window whose start is later than
    its end (22:00 to 02:00, say) runs into the next local date: its end
    instant is the end time on the day after, localized. In a zone of
    constant offset the window lasts the overnight span, 24 hours less the
    time from end to start. For a store that is closed at all other hours,
    a range of at most seven UTC dates that covers the whole window and
    holds an observation has uptime plus downtime equal to that span. A
    range that begins inside the window is another matter: the part of the
    window after 00:00 UTC is then not attributed. *)
Theorem overnight_window_span (off : Z) (timezone_str : string)
    (d : Database) (sid : string)
    (start_time end_time local_date bh_start bh_end : Z) :
  let tz := fixed_zone off in
  let hours : gmap Z (Z * Z) := {[ weekday local_date := (bh_start, bh_end) ]} in
  bh_end < bh_start → 0 ≤ bh_end → bh_start < DAY →
  tzdb timezone_str = Some tz →
  date_of end_time ≤ date_of start_time + 6 →
  start_time ≤ combine local_date bh_start - off →
  combine (local_date + 1) bh_end - off ≤ end_time →
  query_status_records d sid start_time end_time ≠ [] →
  (∀ any_tz,
     business_window any_tz local_date bh_start bh_end
     = (localize any_tz (combine local_date bh_start),
        localize any_tz (combine (local_date + 1) bh_end)))
  ∧ (business_window tz local_date bh_start bh_end).2
    - (business_window tz local_date bh_start bh_end).1
    = DAY - (bh_start - bh_end)
  ∧ ∃ uptime downtime,
      interpolate_status_for_period tzdb d sid start_time end_time
        timezone_str hours = Ok (uptime, downtime)
      ∧ (uptime + downtime)%Qc
        = (minutes_of (DAY - (bh_start - bh_end)) / Qc_of_Z 60)%Qc.
Proof.
  intros tz hours Hnight Hend Hstart Hzone Hdates Hlo Hhi Hrecords.
  split; [intros any_tz; by apply overnight_business_window|].
  split.
  { rewrite overnight_business_window by done.
    unfold tz, combine; simpl. ring. }
  destruct (visited_date_of_window off start_time end_time local_date
              bh_start bh_end Hend Hstart Hlo Hhi) as [Hlocal Hvisited].
  set (cd := local_date - off `div` DAY) in *.
  assert (Hclosed : ∀ m len, cd - 6 ≤ m → m + len ≤ cd + 7 →
            (m + len ≤ cd ∨ cd < m) →
            Forall (λ x, hours !! weekday (local_date_of tz x) = None)
                   (seqZ m len)).
  { intros m len Hm Hlen Hside. apply Forall_seqZ. intros x Hx.
    replace x with (cd + (x - cd)) by lia.
    unfold tz. rewrite local_date_of_fixed_zone, Hlocal.
    apply lookup_singleton_ne. intros Heq. symmetry in Heq. revert Heq.
    apply weekday_recurs; lia. }
  unfold interpolate_status_for_period.
  destruct (query_status_records d sid start_time end_time) as [|r rs] eqn:Hq;
    [done|].
  replace (date_of end_time - date_of start_time + 1)
    with ((cd - date_of start_time) + (date_of end_time - cd + 1)) by lia.
  rewrite seqZ_app by lia.
  replace (date_of start_time + (cd - date_of start_time)) with cd by lia.
  rewrite (seqZ_cons cd) by lia.
  rewrite days_loop_app, (days_loop_closed tz) by (try done; apply Hclosed; lia).
  cbn [mbind result_bind days_loop].
  rewrite (process_day_known_zone tzdb tz) by done. cbn [mbind result_bind].
  rewrite (days_loop_closed tz) by (try done; apply Hclosed; lia).
  eexists _, _. split; [reflexivity|]. cbn [fst snd].
  pose proof (day_totals_total tz start_time end_time hours (r :: rs)
                (0%Qc, 0%Qc) cd) as Htotal.
  unfold pair_sum in Htotal. cbn [fst snd] in Htotal.
  unfold Qcdiv. rewrite <- Qcmult_plus_distr_l, Htotal.
  assert (Hzero : ∀ x : Qc, (0 + 0 + x)%Qc = x) by (intros; ring).
  rewrite Hzero. do 2 f_equal.
  unfold spec_window_overlap. unfold tz in *. rewrite Hlocal. unfold hours.
  rewrite lookup_singleton_eq, overnight_business_window by done.
  unfold combine, DAY, HOUR, MINUTE, SECOND in *; simpl. lia.
Qed.

End Overnight.

Lemma overnight_window_span_witness :
  ∃ uptime downtime,
    interpolate_status_for_period sample_tzdb night_db "bar"
      (at_time (jan25 - 2) 18 0 0) (at_time (jan25 + 1) 23 59 59) "UTC"
      {[ 2 := (dt_time 22 0 0, dt_time 2 0 0) ]} = Ok (uptime, downtime)
    ∧ (uptime + downtime)%Qc = Qc_of_Z 4.
Proof.
  assert (Hspan := overnight_window_span sample_tzdb 0 "UTC" night_db "bar"
            (at_time (jan25 - 2) 18 0 0) (at_time (jan25 + 1) 23 59 59)
            jan25 (dt_time 22 0 0) (dt_time 2 0 0)).
  destruct Hspan as (_ & _ & uptime & downtime & Hrun & Hsum).
  - reflexivity.
  - discriminate.
  - reflexivity.
  - reflexivity.
  - discriminate.
  - discriminate.
  - discriminate.
  - vm_compute. discriminate.
  - exists uptime, downtime. split; [exact Hrun|].
    rewrite Hsum. qc_eval.
Defined.

(** C4 (here the code departs from the claim). Store [bar] is open on
    Wednesdays only, from 22:00 to 02:00, in UTC; its window of Wednesday
    2023-01-25 runs to Thursday 02:00 and so crosses the UTC date boundary.
    At the latest timestamp of the data, Thursday 01:00, the last hour lies
    wholly in that window: the business time in the range is one hour, by
    the claim attributable after the date boundary as before it. The loop
    visits the UTC date of the range only, Thursday, finds no row for it,
    and the call returns (0, 0), so that the last-hour figures are both 0.
    Over the last week the store has 4 hours of business time, 1 hour at
    the end of the window of the Wednesday before and 3 hours of this one,
    and the call returns 3: the hour after midnight of the earlier window is
    lost in the same way. *)
Theorem overnight_spill_not_attributed :
  get_max_timestamp night_db = Some (at_time (jan25 + 1) 1 0 0)
  ∧ get_store_timezone night_db "bar" = "UTC"%string
  ∧ get_business_hours night_db "bar" !! 2
    = Some (dt_time 22 0 0, dt_time 2 0 0)
  ∧ get_business_hours night_db "bar" !! 3 = None
  ∧ business_window (fixed_zone 0) jan25 (dt_time 22 0 0) (dt_time 2 0 0)
    = (at_time jan25 22 0 0, at_time (jan25 + 1) 2 0 0)
  ∧ query_status_records night_db "bar"
      (at_time (jan25 + 1) 1 0 0 - HOUR) (at_time (jan25 + 1) 1 0 0)
    = [observation "bar" (at_time (jan25 + 1) 1 0 0) "inactive"]
  ∧ spec_business_time (fixed_zone 0) (get_business_hours night_db "bar")
      (at_time (jan25 + 1) 1 0 0 - HOUR) (at_time (jan25 + 1) 1 0 0) = HOUR
  ∧ interpolate_status_for_period sample_tzdb night_db "bar"
      (at_time (jan25 + 1) 1 0 0 - HOUR) (at_time (jan25 + 1) 1 0 0) "UTC"
      (get_business_hours night_db "bar") = Ok (0%Qc, 0%Qc)
  ∧ spec_business_time (fixed_zone 0) (get_business_hours night_db "bar")
      (at_time (jan25 + 1) 1 0 0 - WEEK) (at_time (jan25 + 1) 1 0 0)
    = 4 * HOUR
  ∧ interpolate_status_for_period sample_tzdb night_db "bar"
      (at_time (jan25 + 1) 1 0 0 - WEEK) (at_time (jan25 + 1) 1 0 0) "UTC"
      (get_business_hours night_db "bar") = Ok (Qc_of_Z 2, Qc_of_Z 1)
  ∧ (λ m, (uptime_last_hour m, downtime_last_hour m,
           uptime_last_week m, downtime_last_week m))
      <$> ok_value (calculate_store_metrics sample_tzdb night_db "bar"
                      (get_max_timestamp night_db))
    = Some (0%Qc, 0%Qc, Qc_of_Z 2, Qc_of_Z 1).
Proof.
  repeat split; try reflexivity; qc_eval.
Qed.

(** ** Rounding to two decimals *)

Lemma Qfloor_Qc_bounds (y : Qc) :
  (Qc_of_Z (Qfloor y) ≤ y)%Qc ∧ (y < Qc_of_Z (Qfloor y) + 1)%Qc.
Proof.
  split.
  - apply (Qfloor_le y).
  - rewrite <- Z2Qc_inj_1, <- Z2Qc_inj_add. apply (Qlt_floor y).
Qed.

(** The rounded integer is within one half of the value. *)
Lemma round_half_even_near (y : Qc) :
  (Qc_of_Z (round_half_even y) - y ≤ 1 / 2)%Qc
  ∧ (y - Qc_of_Z (round_half_even y) ≤ 1 / 2)%Qc.
Proof.
  destruct (Qfloor_Qc_bounds y) as [Hlo Hhi].
  unfold round_half_even.
  set (f := Qfloor y) in *. set (F := Qc_of_Z f) in *.
  set (h := (1 / 2)%Qc).
  assert (Hh : (1 = h + h)%Qc) by (by apply Qc_is_canon).
  assert (H0h : (0 ≤ h)%Qc) by done.
  clearbody h.
  assert (Hnext : Qc_of_Z (f + 1) = (F + 1)%Qc)
    by (by rewrite Z2Qc_inj_add, Z2Qc_inj_1).
  assert (Hdown : (F - y ≤ h)%Qc).
  { trans 0%Qc; [|done].
    apply (Qcplus_le_mono_r _ _ y).
    replace (F - y + y)%Qc with F by ring.
    by rewrite Qcplus_0_l. }
  assert (Hup : (y - (F + 1) ≤ h)%Qc).
  { trans 0%Qc; [|done].
    apply (Qcplus_le_mono_r _ _ (F + 1)).
    replace (y - (F + 1) + (F + 1))%Qc with y by ring.
    rewrite Qcplus_0_l. by apply Qclt_le_weak. }
  assert (Hround_up : (h ≤ y - F → F + 1 - y ≤ h)%Qc).
  { intros Hr. apply (Qcplus_le_mono_r _ _ (y - F - h)).
    replace (F + 1 - y + (y - F - h))%Qc with h by (rewrite Hh; ring).
    by replace (h + (y - F - h))%Qc with (y - F)%Qc by ring. }
  fold F. repeat case_decide; rewrite ?Hnext; split; try done.
  - by apply Qclt_le_weak.
  - apply Hround_up. by apply Qclt_le_weak.
  - destruct (Z.even f); [done|]. rewrite Hnext. apply Hround_up.
    by apply Qcnot_lt_le.
  - destruct (Z.even f); [by apply Qcnot_lt_le|]. by rewrite Hnext.
Qed.

Lemma round2_near (x : Qc) :
  (round2 x - x ≤ 1 / Qc_of_Z 200)%Qc ∧ (x - round2 x ≤ 1 / Qc_of_Z 200)%Qc.
Proof.
  destruct (round_half_even_near (x * Qc_of_Z 100)) as [Hdown Hup].
  unfold round2. set (n := Qc_of_Z (round_half_even (x * Qc_of_Z 100))) in *.
  assert (Hscale : ∀ a : Qc, (a ≤ 1 / 2 → a / Qc_of_Z 100 ≤ 1 / Qc_of_Z 200)%Qc).
  { intros a Ha.
    replace (1 / Qc_of_Z 200)%Qc with (1 / 2 / Qc_of_Z 100)%Qc
      by (by apply Qc_is_canon).
    unfold Qcdiv at 1 3. by apply Qcmult_le_mono_nonneg_r. }
  assert (Hx : x = (x * Qc_of_Z 100 / Qc_of_Z 100)%Qc).
  { unfold Qcdiv. rewrite <- Qcmult_assoc, Qcmult_inv_r, Qcmult_1_r; done. }
  split.
  - replace (n / Qc_of_Z 100 - x)%Qc with ((n - x * Qc_of_Z 100) / Qc_of_Z 100)%Qc
      by (rewrite Hx at 2; unfold Qcdiv; ring).
    by apply Hscale.
  - replace (x - n / Qc_of_Z 100)%Qc with ((x * Qc_of_Z 100 - n) / Qc_of_Z 100)%Qc
      by (rewrite Hx at 2; unfold Qcdiv; ring).
    by apply Hscale.
Qed.

(** ** The metrics of a store *)

Section MetricsEngine.

Variable tzdb : string → option tzinfo.

(** C6. [calculate_store_metrics] reports the last-hour figures in minutes,
    sixty times the hours interpolated over [current_time - 1h,
    current_time], and the last-day and last-week figures in hours; each of
    the six figures is rounded to two decimals (a multiple of 1/100 within
    half a hundredth of the unrounded value); and for a store without any
    observation the call returns a record, it does not raise. *)
Theorem metrics_units_and_rounding (d : Database) (sid : string)
    (current_time : Z) :
  let timezone_str := get_store_timezone d sid in
  let hours := get_business_hours d sid in
  (∀ m, calculate_store_metrics tzdb d sid (Some current_time) = Ok m →
     ∃ up_1h down_1h up_1d down_1d up_1w down_1w,
       interpolate_status_for_period tzdb d sid (current_time - HOUR)
         current_time timezone_str hours = Ok (up_1h, down_1h)
       ∧ interpolate_status_for_period tzdb d sid (current_time - DAY)
           current_time timezone_str hours = Ok (up_1d, down_1d)
       ∧ interpolate_status_for_period tzdb d sid (current_time - WEEK)
           current_time timezone_str hours = Ok (up_1w, down_1w)
       ∧ store_id m = sid
       ∧ uptime_last_hour m = round2 (up_1h * Qc_of_Z 60)
       ∧ downtime_last_hour m = round2 (down_1h * Qc_of_Z 60)
       ∧ uptime_last_day m = round2 up_1d
       ∧ downtime_last_day m = round2 down_1d
       ∧ uptime_last_week m = round2 up_1w
       ∧ downtime_last_week m = round2 down_1w)
  ∧ (∀ x, two_decimals (round2 x)
          ∧ (round2 x - x ≤ 1 / Qc_of_Z 200)%Qc
          ∧ (x - round2 x ≤ 1 / Qc_of_Z 200)%Qc)
  ∧ ((∀ r, r ∈ store_status d → ss_store_id r ≠ sid) →
       ∃ m, calculate_store_metrics tzdb d sid (Some current_time) = Ok m).
Proof.
  intros timezone_str hours. split; [|split].
  - intros m. unfold calculate_store_metrics. fold timezone_str hours.
    cbn [from_option mbind result_bind].
    destruct (interpolate_status_for_period tzdb d sid (current_time - HOUR) _ _ _)
      as [[up_1h down_1h]|]; cbn [mbind result_bind]; [|done].
    destruct (interpolate_status_for_period tzdb d sid (current_time - DAY) _ _ _)
      as [[up_1d down_1d]|]; cbn [mbind result_bind]; [|done].
    destruct (interpolate_status_for_period tzdb d sid (current_time - WEEK) _ _ _)
      as [[up_1w down_1w]|]; cbn [mbind result_bind]; [|done].
    intros [= <-]. by exists up_1h, down_1h, up_1d, down_1d, up_1w, down_1w.
  - intros x. split; [by eexists|apply round2_near].
  - intros Hnone. unfold calculate_store_metrics.
    cbn [from_option mbind result_bind].
    rewrite !interpolate_no_records
      by (apply query_status_records_nil; intros r Hr Hsid; by destruct (Hnone r)).
    by eexists.
Qed.

End MetricsEngine.

Lemma metrics_units_and_rounding_witness :
  (∃ m, calculate_store_metrics sample_tzdb sample_db "nobody"
          (Some (at_time jan25 18 13 22)) = Ok m)
  ∧ (∃ m, calculate_store_metrics sample_tzdb sample_db "north"
            (Some (at_time jan25 18 13 22)) = Ok m
          ∧ uptime_last_hour m = Qc_of_Z 30 ∧ downtime_last_hour m = Qc_of_Z 30).
Proof.
  destruct (metrics_units_and_rounding sample_tzdb sample_db "nobody"
              (at_time jan25 18 13 22)) as (_ & _ & Hquiet).
  destruct (metrics_units_and_rounding sample_tzdb sample_db "north"
              (at_time jan25 18 13 22)) as (Hfields & _ & _).
  split.
  - apply Hquiet. intros r Hr.
    repeat (apply elem_of_cons in Hr as [->|Hr]; [discriminate|]).
    by apply elem_of_nil in Hr.
  - destruct (calculate_store_metrics sample_tzdb sample_db "north"
                (Some (at_time jan25 18 13 22))) as [m|e] eqn:Hrun.
    + exists m. split; [done|].
      destruct (Hfields m eq_refl)
        as (u1 & d1 & u2 & d2 & u3 & d3 & H1 & _ & _ & _ & Hup & Hdown & _).
      rewrite Hup, Hdown.
      assert (Hhour : Ok (u1, d1) = Ok ((1 / 2)%Qc, (1 / 2)%Qc)).
      { rewrite <- H1. qc_eval. }
      injection Hhour as -> ->. split; by apply Qc_is_canon.
    + vm_compute in Hrun. discriminate.
Defined.

(** ** The report job *)

Section ReportJob.

Variable tzdb : string → option tzinfo.

(** The loop of lines 245-252 keeps, in order, the records of the stores
    whose computation returned. *)
Lemma collect_report_data_omap (d : Database) (current_time : option Z)
    (store_ids : list string) :
  collect_report_data tzdb d current_time store_ids
  = omap (λ sid, ok_value (calculate_store_metrics tzdb d sid current_time))
         store_ids.
Proof.
  unfold collect_report_data.
  enough (∀ acc,
    foldl (λ report_data sid,
             match calculate_store_metrics tzdb d sid current_time with
             | Ok metrics => report_data ++ [metrics]
             | Raise _ => report_data
             end) acc store_ids
    = acc ++ omap (λ sid, ok_value
                            (calculate_store_metrics tzdb d sid current_time))
                  store_ids) as Hgen by apply (Hgen []).
  induction store_ids as [|sid store_ids IH]; intros acc; simpl.
  - by rewrite app_nil_r.
  - rewrite IH.
    destruct (calculate_store_metrics tzdb d sid current_time); simpl; [|done].
    by rewrite <- app_assoc.
Qed.

Lemma calculate_store_metrics_store_id (d : Database) (sid : string)
    (current_time : option Z) (m : Metrics) :
  calculate_store_metrics tzdb d sid current_time = Ok m → store_id m = sid.
Proof.
  unfold calculate_store_metrics.
  destruct current_time as [t|]; cbn [from_option mbind result_bind]; [|done].
  destruct (interpolate_status_for_period tzdb d sid (t - HOUR) _ _ _)
    as [[up_1h down_1h]|]; cbn [mbind result_bind]; [|done].
  destruct (interpolate_status_for_period tzdb d sid (t - DAY) _ _ _)
    as [[up_1d down_1d]|]; cbn [mbind result_bind]; [|done].
  destruct (interpolate_status_for_period tzdb d sid (t - WEEK) _ _ _)
    as [[up_1w down_1w]|]; cbn [mbind result_bind]; [|done].
  by intros [= <-].
Qed.

Lemma collect_report_data_store_ids (d : Database) (current_time : option Z)
    (store_ids : list string) :
  store_id <$> collect_report_data tzdb d current_time store_ids
  = filter (λ sid, is_ok (calculate_store_metrics tzdb d sid current_time))
           store_ids.
Proof.
  rewrite collect_report_data_omap.
  induction store_ids as [|sid store_ids IH]; [done|].
  rewrite filter_cons. cbn [omap list_omap].
  destruct (calculate_store_metrics tzdb d sid current_time) as [m|e] eqn:Hm;
    cbn [ok_value is_ok].
  - rewrite decide_True by done. rewrite fmap_cons, IH. f_equal.
    by apply calculate_store_metrics_store_id in Hm.
  - rewrite decide_False by (by intros []). done.
Qed.

(** C8. When the job exists and the CSV file can be written, a store whose
    metrics raise is left out and the others are kept: the artifact holds
    one data row per store whose computation returned, their store ids being
    the distinct store ids with the failing ones removed, and the job is
    set to Complete with the path of the artifact. *)
Theorem failing_store_is_skipped (w : World) (report_id : string) (report : Report) :
  reports (db w) !! report_id = Some report →
  let w' := generate_report_async tzdb true w report_id in
  let current_time := get_max_timestamp (db w) in
  let store_ids := remove_dups (ss_store_id <$> store_status (db w)) in
  ∃ rows,
    files w' !! csv_path report_id
      = Some {| fieldnames := report_fieldnames; data_rows := rows |}
    ∧ rows
      = omap (λ sid, ok_value
                       (calculate_store_metrics tzdb (db w) sid current_time))
             store_ids
    ∧ store_id <$> rows
      = filter (λ sid, is_ok (calculate_store_metrics tzdb (db w) sid
                                current_time))
               store_ids
    ∧ NoDup (store_id <$> rows)
    ∧ reports (db w') !! report_id
      = Some {| report_status := "Complete";
                file_path := Some (csv_path report_id) |}.
Proof.
  intros Hjob w' current_time store_ids.
  exists (collect_report_data tzdb (db w) current_time store_ids).
  unfold w', generate_report_async. rewrite Hjob. simpl.
  rewrite !lookup_insert_eq. fold current_time store_ids.
  split; [done|]. split; [apply collect_report_data_omap|].
  split; [apply collect_report_data_store_ids|]. split; [|done].
  rewrite collect_report_data_store_ids.
  apply NoDup_filter, NoDup_remove_dups.
Qed.

End ReportJob.

Lemma failing_store_is_skipped_witness :
  remove_dups (ss_store_id <$> store_status sample_db)
    = ["north"; "west"; "lost"]%string
  ∧ is_ok (calculate_store_metrics sample_tzdb sample_db "lost"
             (get_max_timestamp sample_db)) = false
  ∧ (∃ rows,
       files (generate_report_async sample_tzdb true triggered_world "job-1")
         !! csv_path "job-1"
         = Some {| fieldnames := report_fieldnames; data_rows := rows |}
       ∧ store_id <$> rows = ["north"; "west"]%string
       ∧ length rows = 2%nat)
  ∧ report_status <$>
      reports (db (generate_report_async sample_tzdb true triggered_world
                     "job-1")) !! "job-1"
    = Some "Complete"%string.
Proof.
  destruct (failing_store_is_skipped sample_tzdb triggered_world "job-1"
              running_job)
    as (rows & Hfile & _ & Hids & _ & Hjob); [reflexivity|].
  split; [reflexivity|]. split; [reflexivity|]. split.
  - exists rows. split; [exact Hfile|].
    assert (Hstores : store_id <$> rows = ["north"; "west"]%string)
      by (rewrite Hids; reflexivity).
    split; [exact Hstores|].
    rewrite <- (length_fmap store_id), Hstores. reflexivity.
  - by rewrite Hjob.
Defined.

(** ** The life cycle of a report job *)

Section JobLifeCycle.

Variable tzdb : string → option tzinfo.

Lemma initial_pending_running (w : World) : initial w → pending_running w.
Proof.
  intros Htasks. split; rewrite Htasks; [constructor|].
  intros report_id Hin. by apply elem_of_nil in Hin.
Qed.

Lemma trigger_report_inv (uuid : string) (w w' : World) (report_id : string) :
  trigger_report uuid w = Ok (w', report_id) →
  reports (db w) !! uuid = None
  ∧ reports (db w')
    = <[uuid := {| report_status := "Running"; file_path := None |}]>
        (reports (db w))
  ∧ tasks w' = tasks w ++ [uuid]
  ∧ files w' = files w.
Proof.
  unfold trigger_report.
  destruct (reports (db w) !! uuid) eqn:Hfresh; [done|].
  by intros [= <- <-].
Qed.

Lemma generate_report_async_reports (io_ok : bool) (w : World)
    (report_id : string) (report : Report) :
  reports (db w) !! report_id = Some report →
  let w' := generate_report_async tzdb io_ok w report_id in
  tasks w' = tasks w
  ∧ ∃ report',
      reports (db w') = <[report_id := report']> (reports (db w))
      ∧ ((report' = {| report_status := "Complete";
                       file_path := Some (csv_path report_id) |}
          ∧ is_Some (files w' !! csv_path report_id))
         ∨ report' = {| report_status := "Failed";
                        file_path := file_path report |}).
Proof.
  intros Hjob. unfold generate_report_async. rewrite Hjob.
  destruct io_ok; simpl; (split; [done|]); eexists; (split; [done|]).
  - left. split; [done|]. by rewrite lookup_insert_eq.
  - by right.
Qed.

Lemma step_pending_running (w w' : World) :
  pending_running w → step tzdb w w' → pending_running w'.
Proof.
  intros [Hnodup Hrunning] Hstep.
  destruct Hstep as [uuid w w' rid Htrigger|io_ok rid pre post w Htasks|rid w r _];
    [| |done].
  - apply trigger_report_inv in Htrigger as (Hfresh & Hreports & Htasks' & _).
    split.
    + rewrite Htasks'. apply NoDup_app. split; [done|]. split.
      * intros id Hid Hin. apply list_elem_of_singleton in Hin as ->.
        destruct (Hrunning uuid Hid) as (r & Hr & _). congruence.
      * apply NoDup_singleton.
    + intros id Hid. rewrite Htasks', elem_of_app in Hid. rewrite Hreports.
      destruct Hid as [Hid|Hid].
      * destruct (Hrunning id Hid) as (r & Hr & Hstatus).
        exists r. split; [|done]. rewrite lookup_insert_ne; [done|congruence].
      * apply list_elem_of_singleton in Hid as ->.
        eexists. by rewrite lookup_insert_eq.
  - rewrite Htasks in Hnodup, Hrunning.
    destruct (Hrunning rid) as (r & Hr & Hstatus); [set_solver|].
    destruct (generate_report_async_reports io_ok (take_task pre post w) rid r Hr)
      as (Htasks' & r' & Hreports & _).
    apply NoDup_app in Hnodup as (Hpre & Hdisjoint & Hpost).
    apply NoDup_cons in Hpost as [Hrid Hpost].
    split.
    + rewrite Htasks'. simpl. apply NoDup_app. split; [done|].
      split; [|done]. intros id Hid Hin. apply (Hdisjoint id Hid). set_solver.
    + intros id Hid. rewrite Htasks' in Hid. simpl in Hid. rewrite Hreports.
      simpl. rewrite lookup_insert_ne.
      * apply Hrunning. rewrite elem_of_app, elem_of_cons.
        apply elem_of_app in Hid as [Hid|Hid]; auto.
      * intros <-. apply elem_of_app in Hid as [Hid|Hid]; [|done].
        apply (Hdisjoint rid Hid). set_solver.
Qed.

Lemma reachable_pending_running (w : World) :
  reachable tzdb w → pending_running w.
Proof.
  intros (w0 & Hinit & Hrun).
  apply (rtc_ind_r (R := step tzdb) pending_running w0); [|clear w Hrun|exact Hrun].
  - by apply initial_pending_running.
  - intros w1 w2 _ Hstep IH. by eapply step_pending_running.
Qed.

Lemma step_job_transition (w w' : World) (report_id : string) :
  pending_running w → step tzdb w w' → job_transition w w' report_id.
Proof.
  intros [Hnodup Hrunning] Hstep. unfold job_transition.
  destruct Hstep as [uuid w w' rid Htrigger|io_ok rid pre post w Htasks|rid w r _].
  - apply trigger_report_inv in Htrigger as (Hfresh & Hreports & _ & _).
    rewrite Hreports. destruct (decide (uuid = report_id)) as [->|Hne].
    + rewrite Hfresh, lookup_insert_eq. by right.
    + rewrite lookup_insert_ne by done.
      destruct (reports (db w) !! report_id); by left.
  - destruct (Hrunning rid) as (r & Hr & Hstatus); [rewrite Htasks; set_solver|].
    destruct (generate_report_async_reports io_ok (take_task pre post w) rid r Hr)
      as (_ & r' & Hreports & Hr').
    rewrite Hreports. simpl. destruct (decide (rid = report_id)) as [->|Hne].
    + rewrite Hr, lookup_insert_eq. right. split; [done|].
      destruct Hr' as [[-> Hfile]| ->]; [by left|by right].
    + rewrite lookup_insert_ne by done.
      destruct (reports (db w) !! report_id); by left.
  - destruct (reports (db w) !! report_id); by left.
Qed.

Lemma step_keeps_finished_job (w w' : World) (report_id : string)
    (report : Report) :
  pending_running w → step tzdb w w' →
  reports (db w) !! report_id = Some report →
  report_status report ≠ "Running"%string →
  reports (db w') !! report_id = Some report.
Proof.
  intros Hinv Hstep Hjob Hdone.
  pose proof (step_job_transition w w' report_id Hinv Hstep) as Htrans.
  unfold job_transition in Htrans. rewrite Hjob in Htrans.
  by destruct Htrans as [?|[? _]].
Qed.

(** C7. In every run of the service a job is created in state Running; a
    step leaves the row of a job as it is, or takes it from Running to
    Complete, attaching the path of the artifact it has just written, or
    from Running to Failed; and the row of a job that is Complete or Failed
    never changes again, so that it neither returns to Running nor changes
    between Complete and Failed. *)
Theorem job_state_monotonic (w : World) :
  reachable tzdb w →
  (∀ w' report_id, step tzdb w w' → job_transition w w' report_id)
  ∧ (∀ w' report_id report,
       rtc (step tzdb) w w' →
       reports (db w) !! report_id = Some report →
       report_status report ≠ "Running"%string →
       reports (db w') !! report_id = Some report).
Proof.
  intros Hreach. split.
  - intros w' report_id Hstep.
    by apply step_job_transition; [apply reachable_pending_running|].
  - intros w' report_id report Hrun Hjob Hdone.
    apply reachable_pending_running in Hreach.
    induction Hrun as [w|w1 w2 w3 Hstep Hrun IH]; [done|].
    apply IH.
    + by eapply step_pending_running.
    + by eapply step_keeps_finished_job.
Qed.

End JobLifeCycle.

Lemma job_state_monotonic_witness :
  reachable sample_tzdb sample_world
  ∧ step sample_tzdb sample_world triggered_world
  ∧ job_transition sample_world triggered_world "job-1".
Proof.
  assert (Hreach : reachable sample_tzdb sample_world).
  { exists sample_world. split; [reflexivity|apply rtc_refl]. }
  assert (Hstep : step sample_tzdb sample_world triggered_world).
  { by apply (step_trigger sample_tzdb "job-1" sample_world triggered_world
                "job-1"). }
  split; [exact Hreach|]. split; [exact Hstep|].
  destruct (job_state_monotonic sample_tzdb sample_world Hreach) as [Htrans _].
  by apply Htrans.
Defined.

(** ** [get_report] on a Complete job without its file *)

(** C10. For a job whose stored state is Complete and whose file path is
    unset (NULL or empty) or names no file on disk, [get_report] raises the
    HTTP error 500 "Report file not found": not the file, nor the Running
    status, nor the error of a failed job, nor the 404 of an unknown job. *)
Theorem complete_job_without_file (w : World) (report_id : string)
    (report : Report) :
  reports (db w) !! report_id = Some report →
  report_status report = "Complete"%string →
  file_path report = None
  ∨ file_path report = Some EmptyString
  ∨ (∃ path, file_path report = Some path ∧ files w !! path = None) →
  get_report w report_id = HTTPException 500 "Report file not found".
Proof.
  intros Hjob Hstatus Hfile. unfold get_report. rewrite Hjob, Hstatus.
  rewrite decide_False by done. rewrite decide_True by done.
  assert (artifact_on_disk w report = None) as ->; [|done].
  unfold artifact_on_disk.
  destruct Hfile as [-> | [-> | (path & -> & Hmissing)]]; [done| |].
  - rewrite decide_False; [done|]. by intros [? _].
  - rewrite decide_False; [done|]. rewrite Hmissing. by intros [_ [? ?]].
Qed.

Lemma complete_job_without_file_witness :
  get_report orphan_world "job-1"
  = HTTPException 500 "Report file not found".
Proof.
  apply (complete_job_without_file orphan_world "job-1"
           {| report_status := "Complete";
              file_path := Some (csv_path "job-1") |});
    [reflexivity|reflexivity|].
  right. right. exists (csv_path "job-1"). split; reflexivity.
Defined.

(** * Further properties of the code *)

(** ** The lookups of the service *)

Lemma foldl_max_bounds (ts : list Z) :
  ∀ t, t ≤ foldl Z.max t ts
       ∧ Forall (λ x, x ≤ foldl Z.max t ts) ts
       ∧ (foldl Z.max t ts = t ∨ foldl Z.max t ts ∈ ts).
Proof.
  induction ts as [|x ts IH]; intros t; simpl.
  - split; [lia|]. split; [constructor|by left].
  - destruct (IH (Z.max t x)) as (Hge & Hall & Hin).
    split; [lia|]. split; [constructor; [lia|done]|].
    destruct Hin as [Heq|Hin]; [|right; by right].
    rewrite Heq. destruct (Z.max_spec t x) as [[_ ->]|[_ ->]].
    + right. by left.
    + by left.
Qed.

(** The reference time of a report is the latest timestamp of the data:
    [get_max_timestamp] returns nothing exactly on an empty table, and
    otherwise the timestamp of some observation that no observation
    exceeds. *)
Theorem get_max_timestamp_latest (d : Database) :
  match get_max_timestamp d with
  | None => store_status d = []
  | Some t =>
    (∃ r, r ∈ store_status d ∧ timestamp_utc r = t)
    ∧ ∀ r, r ∈ store_status d → timestamp_utc r ≤ t
  end.
Proof.
  unfold get_max_timestamp.
  destruct (store_status d) as [|r0 rs]; [done|].
  rewrite fmap_cons.
  destruct (foldl_max_bounds (timestamp_utc <$> rs) (timestamp_utc r0))
    as (Hge & Hall & Hin).
  split.
  - destruct Hin as [Heq|Hin].
    + exists r0. split; [by left|done].
    + apply list_elem_of_fmap in Hin as (r & Hr & Hin).
      exists r. split; [by right|done].
  - intros r Hr. apply elem_of_cons in Hr as [->|Hr]; [done|].
    rewrite Forall_forall in Hall. apply Hall.
    apply list_elem_of_fmap. by exists r.
Qed.

(** [get_store_timezone] gives the default zone to a store without a row;
    when no store has two rows (the column is declared unique), a store
    with a row gets the zone of that row. *)
Theorem get_store_timezone_stored (d : Database) (sid : string) :
  ((∀ r, r ∈ store_timezone d → tz_store_id r ≠ sid) →
     get_store_timezone d sid = "America/Chicago"%string)
  ∧ (NoDup (tz_store_id <$> store_timezone d) →
     ∀ r, r ∈ store_timezone d → tz_store_id r = sid →
          get_store_timezone d sid = timezone_str r).
Proof.
  unfold get_store_timezone. split.
  - intros Hnone.
    destruct (filter _ (store_timezone d)) as [|r rs] eqn:Hrows; [done|].
    assert (r ∈ filter (λ r, tz_store_id r = sid) (store_timezone d)) as Hr
      by (rewrite Hrows; by left).
    apply list_elem_of_filter in Hr as [Hsid Hr]. by destruct (Hnone r).
  - induction (store_timezone d) as [|r0 rows IH]; intros Hnodup r Hr Hsid.
    + by apply elem_of_nil in Hr.
    + rewrite fmap_cons in Hnodup. apply NoDup_cons in Hnodup as [Hfresh Hnodup].
      rewrite filter_cons. destruct (decide (tz_store_id r0 = sid)) as [H0|H0].
      * apply elem_of_cons in Hr as [->|Hr]; [done|].
        exfalso. apply Hfresh. rewrite H0, <- Hsid.
        apply list_elem_of_fmap. by exists r.
      * apply elem_of_cons in Hr as [->|Hr]; [done|]. by apply IH.
Qed.

Lemma get_store_timezone_stored_witness :
  get_store_timezone sample_db "nobody" = "America/Chicago"%string
  ∧ get_store_timezone sample_db "west" = "Etc/GMT+6"%string.
Proof.
  destruct (get_store_timezone_stored sample_db "nobody") as [Hdefault _].
  destruct (get_store_timezone_stored sample_db "west") as [_ Hstored].
  split.
  - apply Hdefault. intros r Hr.
    repeat (apply elem_of_cons in Hr as [->|Hr]; [discriminate|]).
    by apply elem_of_nil in Hr.
  - assert (Hnodup : NoDup (tz_store_id <$> store_timezone sample_db))
      by (apply (bool_decide_unpack _); vm_compute; exact I).
    apply (Hstored Hnodup (zone_row "west" "Etc/GMT+6")); [|reflexivity].
    right. left.
Defined.

(** The dictionary built by lines 42-44: a later row of a day replaces an
    earlier one. *)
Lemma hours_dict_last_row (rows : list BusinessHours) (day : Z) :
  ∀ hours_dict : gmap Z (Z * Z),
    foldl (λ hours_dict bh,
             <[day_of_week bh := (start_time_local bh, end_time_local bh)]>
               hours_dict)
          hours_dict rows !! day
    = match last (filter (λ bh, day_of_week bh = day) rows) with
      | Some bh => Some (start_time_local bh, end_time_local bh)
      | None => hours_dict !! day
      end.
Proof.
  induction rows as [|bh rows IH]; intros hours_dict; simpl; [done|].
  rewrite IH, filter_cons.
  destruct (decide (day_of_week bh = day)) as [Hday|Hday].
  - rewrite last_cons.
    destruct (last (filter _ rows)); [done|].
    by rewrite Hday, lookup_insert_eq.
  - destruct (last (filter _ rows)); [done|]. by rewrite lookup_insert_ne.
Qed.

(** For a store with stored business hours, [get_business_hours] maps each
    day of the week to the window of the last row stored for that day, and
    has no entry for a day without a row. *)
Theorem get_business_hours_stored (d : Database) (sid : string) (day : Z) :
  let rows := filter (λ r, bh_store_id r = sid) (business_hours d) in
  rows ≠ [] →
  get_business_hours d sid !! day
  = (λ bh, (start_time_local bh, end_time_local bh))
      <$> last (filter (λ bh, day_of_week bh = day) rows).
Proof.
  intros rows Hrows. unfold get_business_hours. fold rows.
  destruct rows as [|bh rows'] eqn:Heq; [done|].
  rewrite hours_dict_last_row.
  by destruct (last (filter _ (bh :: rows'))).
Qed.

Lemma get_business_hours_stored_witness :
  get_business_hours night_db "bar" !! 2 = Some (dt_time 22 0 0, dt_time 2 0 0).
Proof.
  rewrite (get_business_hours_stored night_db "bar" 2); [reflexivity|].
  discriminate.
Defined.

(** ** [is_within_business_hours] and the windows of the interpolator *)

Lemma local_time_split (local_time : Z) :
  local_time = date_of local_time * DAY + time_of local_time
  ∧ 0 ≤ time_of local_time < DAY.
Proof.
  unfold date_of, time_of.
  pose proof (Z.div_mod local_time DAY ltac:(done)).
  pose proof (Z.mod_pos_bound local_time DAY ltac:(done)). lia.
Qed.

(** For a window that opens and closes on the same day, and a zone of
    constant offset, [is_within_business_hours] holds of the local time of
    a UTC instant exactly when the instant lies in the window that
    [interpolate_status_for_period] builds for that local date. *)
Theorem is_within_same_day_window (off : Z) (hours : gmap Z (Z * Z))
    (utc_time bh_start bh_end : Z) :
  let local_time := utc_time + utcoffset (fixed_zone off) utc_time in
  let window :=
    business_window (fixed_zone off) (date_of local_time) bh_start bh_end in
  hours !! weekday (date_of local_time) = Some (bh_start, bh_end) →
  bh_start ≤ bh_end →
  is_within_business_hours local_time hours = true
  ↔ window.1 ≤ utc_time ∧ utc_time ≤ window.2.
Proof.
  intros local_time window Hrow Hday.
  unfold is_within_business_hours. rewrite Hrow.
  rewrite decide_True by done. rewrite bool_decide_eq_true.
  unfold window, business_window. rewrite decide_False by lia.
  destruct (local_time_split local_time) as [Hsplit _].
  unfold local_time in Hsplit at 1. simpl in Hsplit.
  unfold combine; simpl. lia.
Qed.

Lemma is_within_same_day_window_witness :
  is_within_business_hours (at_time jan25 12 0 0 + -6 * HOUR)
    {[ 2 := (dt_time 0 0 0, dt_time 23 59 59) ]} = true.
Proof.
  apply (is_within_same_day_window (-6 * HOUR)
           {[ 2 := (dt_time 0 0 0, dt_time 23 59 59) ]}
           (at_time jan25 12 0 0) (dt_time 0 0 0) (dt_time 23 59 59));
    [reflexivity|discriminate|].
  split; discriminate.
Defined.

(** For an overnight row (start later than end), [is_within_business_hours]
    uses the row of the current weekday on both sides of midnight: it holds
    exactly when the instant lies in the window of the local date or in the
    window that the same row would give the date before. The interpolator
    builds the window of the date before from that date's own row. *)
Theorem is_within_overnight_window (off : Z) (hours : gmap Z (Z * Z))
    (utc_time bh_start bh_end : Z) :
  let local_time := utc_time + utcoffset (fixed_zone off) utc_time in
  let today :=
    business_window (fixed_zone off) (date_of local_time) bh_start bh_end in
  let yesterday :=
    business_window (fixed_zone off) (date_of local_time - 1) bh_start bh_end in
  hours !! weekday (date_of local_time) = Some (bh_start, bh_end) →
  bh_end < bh_start → 0 ≤ bh_end → bh_start ≤ DAY →
  is_within_business_hours local_time hours = true
  ↔ (today.1 ≤ utc_time ∧ utc_time ≤ today.2)
    ∨ (yesterday.1 ≤ utc_time ∧ utc_time ≤ yesterday.2).
Proof.
  intros local_time today yesterday Hrow Hnight Hend Hstart.
  unfold is_within_business_hours. rewrite Hrow.
  rewrite decide_False by lia. rewrite bool_decide_eq_true.
  unfold today, yesterday, business_window. rewrite !decide_True by done.
  destruct (local_time_split local_time) as [Hsplit Htod].
  unfold local_time in Hsplit at 1. simpl in Hsplit.
  unfold combine; simpl. unfold DAY, HOUR, MINUTE, SECOND in *. lia.
Qed.

Lemma is_within_overnight_window_witness :
  is_within_business_hours (at_time jan25 1 0 0 + 0)
    {[ 2 := (dt_time 22 0 0, dt_time 2 0 0) ]} = true.
Proof.
  apply (is_within_overnight_window 0
           {[ 2 := (dt_time 22 0 0, dt_time 2 0 0) ]}
           (at_time jan25 1 0 0) (dt_time 22 0 0) (dt_time 2 0 0));
    [reflexivity|reflexivity|discriminate|discriminate|].
  right. split; discriminate.
Defined.

(** ** [get_business_hours_duration] *)

(** The minutes since midnight that lines 78-79 compute drop the seconds. *)
Lemma minutes_since_midnight (t : Z) :
  time_hour t * 60 + time_minute t = t `div` MINUTE.
Proof.
  unfold time_hour, time_minute.
  pose proof (Z.div_mod t HOUR ltac:(done)) as Ht.
  rewrite Ht at 3.
  replace (HOUR * t `div` HOUR + t `mod` HOUR)
    with (t `mod` HOUR + (t `div` HOUR * 60) * MINUTE)
    by (unfold HOUR; ring).
  rewrite Z.div_add by done. lia.
Qed.

(** [get_business_hours_duration] is 0 for a day without an entry; for times
    of day it lies between 0 and 24 hours, 24 excluded; and when both times
    are whole minutes it is the length of the window that the interpolator
    builds for a date with that entry, in a zone of constant offset. *)
Theorem business_hours_duration_range (hours : gmap Z (Z * Z)) (day : Z) :
  (hours !! day = None → get_business_hours_duration hours day = 0%Qc)
  ∧ (∀ bh_start bh_end,
       hours !! day = Some (bh_start, bh_end) →
       0 ≤ bh_start < DAY → 0 ≤ bh_end < DAY →
       (0 ≤ get_business_hours_duration hours day)%Qc
       ∧ (get_business_hours_duration hours day < Qc_of_Z 24)%Qc
       ∧ (bh_start `mod` MINUTE = 0 → bh_end `mod` MINUTE = 0 →
          ∀ off local_date,
            let window :=
              business_window (fixed_zone off) local_date bh_start bh_end in
            (get_business_hours_duration hours day * Qc_of_Z HOUR)%Qc
            = Qc_of_Z (window.2 - window.1))).
Proof.
  split; [intros Hnone; unfold get_business_hours_duration; by rewrite Hnone|].
  intros bh_start bh_end Hrow Hstart Hend.
  unfold get_business_hours_duration. rewrite Hrow.
  rewrite !minutes_since_midnight.
  set (sm := bh_start `div` MINUTE). set (em := bh_end `div` MINUTE).
  assert (Hsm : 0 ≤ sm < 1440).
  { unfold sm. split; [apply Z.div_pos; [lia|done]|].
    apply Z.div_lt_upper_bound; [done|]. unfold DAY, HOUR in Hstart. lia. }
  assert (Hem : 0 ≤ em < 1440).
  { unfold em. split; [apply Z.div_pos; [lia|done]|].
    apply Z.div_lt_upper_bound; [done|]. unfold DAY, HOUR in Hend. lia. }
  set (minutes := if decide (sm ≤ em) then em - sm else 24 * 60 - sm + em).
  assert (Hminutes : 0 ≤ minutes < 1440) by (unfold minutes; case_decide; lia).
  assert (Hsixty : (Qc_of_Z 60 * / Qc_of_Z 60 = 1)%Qc)
    by (by apply Qcmult_inv_r).
  split; [|split].
  - unfold Qcdiv. apply Qcmult_nonneg_nonneg; [|done].
    rewrite <- Z2Qc_inj_0. apply (proj1 (Z2Qc_inj_le _ _)). lia.
  - apply (Qcmult_lt_mono_pos_r _ _ (Qc_of_Z 60)); [done|].
    unfold Qcdiv. rewrite <- Qcmult_assoc, (Qcmult_comm (/ _)), Hsixty.
    rewrite Qcmult_1_r, <- Z2Qc_inj_mul. apply (proj1 (Z2Qc_inj_lt _ _)). lia.
  - intros Hs He off local_date.
    assert (HHOUR : Qc_of_Z HOUR = (Qc_of_Z 60 * Qc_of_Z MINUTE)%Qc)
      by (by rewrite <- Z2Qc_inj_mul).
    unfold Qcdiv. rewrite HHOUR.
    rewrite <- Qcmult_assoc, (Qcmult_assoc (/ _)), (Qcmult_comm (/ _)), Hsixty.
    rewrite Qcmult_1_l, <- Z2Qc_inj_mul. f_equal.
    pose proof (Z.div_mod bh_start MINUTE ltac:(done)) as Hs'.
    pose proof (Z.div_mod bh_end MINUTE ltac:(done)) as He'.
    fold sm in Hs'. fold em in He'. rewrite Hs in Hs'. rewrite He in He'.
    unfold business_window, minutes, combine; simpl.
    unfold DAY, HOUR, MINUTE, SECOND in *. repeat case_decide; lia.
Qed.

Lemma business_hours_duration_range_witness :
  (get_business_hours_duration default_hours 9 = 0%Qc)
  ∧ (get_business_hours_duration night_hours 2 * Qc_of_Z HOUR)%Qc
    = Qc_of_Z (4 * HOUR).
Proof.
  destruct (business_hours_duration_range default_hours 9) as [Hclosed _].
  destruct (business_hours_duration_range night_hours 2) as [_ Hopen].
  split; [by apply Hclosed|].
  destruct (Hopen (dt_time 22 0 0) (dt_time 2 0 0)) as (_ & _ & Hwindow);
    [reflexivity|split; discriminate || reflexivity
    |split; discriminate || reflexivity|].
  rewrite (Hwindow eq_refl eq_refl 0 jan25). reflexivity.
Defined.

(** ** The records of a query, and unknown zones *)

Lemma elem_of_query_status_records (d : Database) (sid : string)
    (start_time end_time : Z) (r : StoreStatus) :
  r ∈ query_status_records d sid start_time end_time
  ↔ r ∈ store_status d ∧ ss_store_id r = sid
    ∧ start_time ≤ timestamp_utc r ∧ timestamp_utc r ≤ end_time.
Proof.
  unfold query_status_records. rewrite merge_sort_Permutation.
  rewrite list_elem_of_filter. tauto.
Qed.

Lemma query_status_records_dates (d : Database) (sid : string)
    (start_time end_time : Z) :
  query_status_records d sid start_time end_time ≠ [] →
  date_of start_time ≤ date_of end_time.
Proof.
  intros Hne.
  destruct (query_status_records d sid start_time end_time) as [|r rs] eqn:Hq;
    [done|].
  assert (r ∈ query_status_records d sid start_time end_time) as Hr
    by (rewrite Hq; by left).
  apply elem_of_query_status_records in Hr as (_ & _ & Hlo & Hhi).
  unfold date_of. apply Z.div_le_mono; [done|lia].
Qed.

(** A range without records has no records in a shorter range with the
    same end. *)
Lemma query_status_records_shorter (d : Database) (sid : string)
    (start_time start_time' end_time : Z) :
  start_time ≤ start_time' →
  query_status_records d sid start_time end_time = [] →
  query_status_records d sid start_time' end_time = [].
Proof.
  intros Hle Hnil. apply elem_of_nil_inv. intros r Hr.
  apply elem_of_query_status_records in Hr as (Hr & Hsid & Hlo & Hhi).
  assert (r ∈ query_status_records d sid start_time end_time) as Hin
    by (apply elem_of_query_status_records; repeat split; [done|done|lia|done]).
  rewrite Hnil in Hin. by apply elem_of_nil in Hin.
Qed.

Section Zones.

Variable tzdb : string → option tzinfo.

Lemma interpolate_without_zone (d : Database) (sid : string)
    (start_time end_time : Z) (timezone_str : string) (hours : gmap Z (Z * Z)) :
  tzdb timezone_str = None →
  interpolate_status_for_period tzdb d sid start_time end_time timezone_str
    hours
  = match query_status_records d sid start_time end_time with
    | [] => Ok (0%Qc, 0%Qc)
    | _ => Raise (UnknownTimeZoneError timezone_str)
    end.
Proof.
  intros Hzone. unfold interpolate_status_for_period.
  pose proof (query_status_records_dates d sid start_time end_time) as Hdates.
  destruct (query_status_records d sid start_time end_time) as [|r rs];
    [done|].
  rewrite seqZ_cons by (specialize (Hdates ltac:(done)); lia).
  cbn [days_loop].
  unfold process_day, convert_utc_to_local, pytz_timezone. by rewrite Hzone.
Qed.

(** When the zone name of the store is not in the tz database,
    [interpolate_status_for_period] raises [UnknownTimeZoneError] exactly
    when the range holds an observation of the store, and returns (0, 0)
    otherwise: the zone is looked up in the loop over the days, after the
    early return. *)
Theorem interpolate_unknown_zone (d : Database) (sid : string)
    (start_time end_time : Z) (timezone_str : string) (hours : gmap Z (Z * Z)) :
  tzdb timezone_str = None →
  interpolate_status_for_period tzdb d sid start_time end_time timezone_str
    hours
  = match query_status_records d sid start_time end_time with
    | [] => Ok (0%Qc, 0%Qc)
    | _ => Raise (UnknownTimeZoneError timezone_str)
    end.
Proof. apply interpolate_without_zone. Qed.

(** With a zone that the tz database knows, the call returns. *)
Lemma interpolate_known_zone (tz : tzinfo) (d : Database) (sid : string)
    (start_time end_time : Z) (timezone_str : string) (hours : gmap Z (Z * Z)) :
  tzdb timezone_str = Some tz →
  ∃ totals,
    interpolate_status_for_period tzdb d sid start_time end_time timezone_str
      hours = Ok totals.
Proof.
  intros Hzone.
  destruct (query_status_records d sid start_time end_time) as [|r rs] eqn:Hq.
  - exists (0%Qc, 0%Qc). by apply interpolate_no_records.
  - destruct (interpolate_total tzdb tz d sid start_time end_time timezone_str
                hours Hzone) as (up & down & Hrun & _); [by rewrite Hq|].
    by exists (up, down).
Qed.

Lemma round2_0 : round2 0 = 0%Qc.
Proof. by apply Qc_is_canon. Qed.

Lemma round2_0_minutes : round2 (0 * Qc_of_Z 60) = 0%Qc.
Proof. by apply Qc_is_canon. Qed.

Lemma calculate_store_metrics_known_zone (tz : tzinfo) (d : Database)
    (sid : string) (current_time : Z) :
  tzdb (get_store_timezone d sid) = Some tz →
  ∃ m, calculate_store_metrics tzdb d sid (Some current_time) = Ok m.
Proof.
  intros Hzone. unfold calculate_store_metrics.
  cbn [from_option mbind result_bind].
  destruct (interpolate_known_zone tz d sid (current_time - HOUR) current_time
              (get_store_timezone d sid) (get_business_hours d sid) Hzone)
    as ([??] & ->).
  destruct (interpolate_known_zone tz d sid (current_time - DAY) current_time
              (get_store_timezone d sid) (get_business_hours d sid) Hzone)
    as ([??] & ->).
  destruct (interpolate_known_zone tz d sid (current_time - WEEK) current_time
              (get_store_timezone d sid) (get_business_hours d sid) Hzone)
    as ([??] & ->).
  cbn [mbind result_bind]. by eexists.
Qed.

Lemma calculate_store_metrics_unknown_zone (d : Database) (sid : string)
    (current_time : Z) :
  tzdb (get_store_timezone d sid) = None →
  calculate_store_metrics tzdb d sid (Some current_time)
  = match query_status_records d sid (current_time - WEEK) current_time with
    | [] => Ok (zero_metrics sid)
    | _ => Raise (UnknownTimeZoneError (get_store_timezone d sid))
    end.
Proof.
  intros Hzone. unfold calculate_store_metrics.
  cbn [from_option mbind result_bind].
  rewrite !interpolate_without_zone by done.
  pose proof (query_status_records_shorter d sid (current_time - WEEK)
                (current_time - HOUR) current_time) as Hhour.
  pose proof (query_status_records_shorter d sid (current_time - WEEK)
                (current_time - DAY) current_time) as Hday.
  destruct (query_status_records d sid (current_time - WEEK) current_time)
    as [|r rs].
  - rewrite Hhour, Hday
      by (done || (unfold WEEK, DAY, HOUR, MINUTE, SECOND; lia)).
    cbn [mbind result_bind mret result_ret].
    by rewrite round2_0, round2_0_minutes.
  - destruct (query_status_records d sid (current_time - HOUR) current_time);
      [|done].
    destruct (query_status_records d sid (current_time - DAY) current_time);
      done.
Qed.

(** [calculate_store_metrics] returns whenever the tz database knows the
    zone of the store. When it does not, the call raises
    [UnknownTimeZoneError] exactly when the store has an observation in the
    week before the reference time, and otherwise returns the record with
    six zeros. *)
Theorem calculate_store_metrics_raises (d : Database) (sid : string)
    (current_time : Z) :
  let timezone_str := get_store_timezone d sid in
  (∀ tz, tzdb timezone_str = Some tz →
     ∃ m, calculate_store_metrics tzdb d sid (Some current_time) = Ok m)
  ∧ (tzdb timezone_str = None →
     calculate_store_metrics tzdb d sid (Some current_time)
     = match query_status_records d sid (current_time - WEEK) current_time with
       | [] => Ok (zero_metrics sid)
       | _ => Raise (UnknownTimeZoneError timezone_str)
       end).
Proof.
  intros timezone_str. split.
  - intros tz. apply calculate_store_metrics_known_zone.
  - apply calculate_store_metrics_unknown_zone.
Qed.

End Zones.

Lemma interpolate_unknown_zone_witness :
  interpolate_status_for_period sample_tzdb sample_db "lost"
    (at_time jan25 17 13 22) (at_time jan25 18 13 22) "Mars/Olympus"
    default_hours
  = Raise (UnknownTimeZoneError "Mars/Olympus").
Proof.
  by rewrite (interpolate_unknown_zone sample_tzdb sample_db "lost"
                (at_time jan25 17 13 22) (at_time jan25 18 13 22)
                "Mars/Olympus" default_hours eq_refl).
Defined.

Lemma calculate_store_metrics_raises_witness :
  calculate_store_metrics sample_tzdb sample_db "lost"
    (Some (at_time jan25 18 13 22))
  = Raise (UnknownTimeZoneError "Mars/Olympus")
  ∧ ∃ m, calculate_store_metrics sample_tzdb sample_db "north"
           (Some (at_time jan25 18 13 22)) = Ok m.
Proof.
  destruct (calculate_store_metrics_raises sample_tzdb sample_db "lost"
              (at_time jan25 18 13 22)) as [_ Hunknown].
  destruct (calculate_store_metrics_raises sample_tzdb sample_db "north"
              (at_time jan25 18 13 22)) as [Hknown _].
  split.
  - by rewrite (Hunknown eq_refl).
  - by apply (Hknown (fixed_zone 0)).
Defined.

(** ** Uptime needs an active observation *)

Lemma credit_not_active (running : string) (td : Z) :
  running ≠ "active"%string → (credit running td).1 = 0%Qc.
Proof. intros Hst. unfold credit. by rewrite decide_False. Qed.

Lemma spec_carry_forward_not_active (period_end : Z)
    (records : list StoreStatus) :
  ∀ (running : string) (cursor : Z),
    running ≠ "active"%string →
    Forall (λ r, status r ≠ "active"%string) records →
    (spec_carry_forward running cursor period_end records).1 = 0%Qc.
Proof.
  induction records as [|r records IH]; intros st ts Hst Hall; simpl.
  - by apply credit_not_active.
  - apply Forall_cons in Hall as [Hr Hall].
    rewrite credit_not_active, IH by done. ring.
Qed.

Lemma account_period_not_active (period_start period_end : Z)
    (status_records : list StoreStatus) (totals : Qc * Qc) :
  Forall (λ r, status r ≠ "active"%string) status_records →
  (account_period period_start period_end status_records totals).1 = totals.1.
Proof.
  intros Hall. unfold account_period.
  destruct (filter _ status_records) as [|r rs] eqn:Hday; [reflexivity|].
  rewrite interpolate_records_carry_forward.
  assert (Hzero : (spec_carry_forward "inactive" period_start period_end
                     (r :: rs)).1 = 0%Qc).
  { apply spec_carry_forward_not_active; [discriminate|].
    rewrite <- Hday. apply Forall_forall. intros r' Hr'.
    apply list_elem_of_filter in Hr' as [_ Hr'].
    rewrite Forall_forall in Hall. by apply Hall. }
  unfold pair_add. cbn [fst]. rewrite Hzero. ring.
Qed.

Section Uptime.

Variable tzdb : string → option tzinfo.

Lemma days_loop_not_active (start_time end_time : Z) (timezone_str : string)
    (hours : gmap Z (Z * Z)) (status_records : list StoreStatus)
    (dates : list Z) :
  Forall (λ r, status r ≠ "active"%string) status_records →
  ∀ totals totals',
    days_loop tzdb start_time end_time timezone_str hours status_records
      dates totals = Ok totals' →
    totals'.1 = totals.1.
Proof.
  intros Hall. induction dates as [|cd dates IH]; intros totals totals'; simpl.
  - by intros [= <-].
  - destruct (tzdb timezone_str) as [tz|] eqn:Hzone.
    + rewrite (process_day_known_zone tzdb tz) by done.
      cbn [mbind result_bind]. intros Hrun. rewrite (IH _ _ Hrun).
      unfold day_totals. destruct (hours !! _) as [[bh_start bh_end]|]; [|done].
      destruct (business_window _ _ _ _) as [ws we].
      case_decide; [done|]. by apply account_period_not_active.
    + unfold process_day, convert_utc_to_local, pytz_timezone.
      by rewrite Hzone.
Qed.

(** When no observation of the store in the range has the status [active],
    the uptime returned by [interpolate_status_for_period] is zero: every
    period starts inactive and only an [active] observation starts
    uptime. *)
Theorem uptime_needs_active_observation (d : Database) (sid : string)
    (start_time end_time : Z) (timezone_str : string)
    (hours : gmap Z (Z * Z)) (uptime downtime : Qc) :
  (∀ r, r ∈ store_status d → ss_store_id r = sid →
        start_time ≤ timestamp_utc r ≤ end_time →
        status r ≠ "active"%string) →
  interpolate_status_for_period tzdb d sid start_time end_time timezone_str
    hours = Ok (uptime, downtime) →
  uptime = 0%Qc.
Proof.
  intros Hquiet. unfold interpolate_status_for_period.
  assert (Hall : Forall (λ r, status r ≠ "active"%string)
                   (query_status_records d sid start_time end_time)).
  { apply Forall_forall. intros r Hr.
    apply elem_of_query_status_records in Hr as (Hr & Hsid & Hlo & Hhi).
    by apply Hquiet. }
  destruct (query_status_records d sid start_time end_time) as [|r rs];
    [by intros [= <- <-]|].
  destruct (days_loop _ _ _ _ _ _ _ _) as [[up down]|] eqn:Hloop;
    cbn [mbind result_bind]; [|done].
  intros [= <- <-]. apply days_loop_not_active in Hloop; [|done].
  simpl in *. rewrite Hloop. by apply Qc_is_canon.
Qed.

(** ** The reported figures are never negative *)

Lemma interpolate_totals_nonneg (d : Database) (sid : string)
    (start_time end_time : Z) (timezone_str : string)
    (hours : gmap Z (Z * Z)) (totals : Qc * Qc) :
  interpolate_status_for_period tzdb d sid start_time end_time timezone_str
    hours = Ok totals →
  nonneg_pair totals.
Proof.
  unfold interpolate_status_for_period.
  pose proof (StronglySorted_merge_sort by_timestamp
    (filter (λ r, ss_store_id r = sid ∧
                  start_time ≤ timestamp_utc r ∧ timestamp_utc r ≤ end_time)
            (store_status d))) as Hsorted.
  fold (query_status_records d sid start_time end_time) in Hsorted.
  destruct (query_status_records d sid start_time end_time) as [|r rs].
  - intros [= <-]. by split.
  - destruct (days_loop _ _ _ _ _ _ _ _) as [[up down]|] eqn:Hloop;
      cbn [mbind result_bind]; [|done].
    intros [= <-].
    apply days_loop_nonneg in Hloop as [Hup Hdown]; [|done|by split].
    simpl in *. unfold Qcdiv.
    split; simpl; apply Qcmult_nonneg_nonneg; done.
Qed.

Lemma round2_nonneg (x : Qc) : (0 ≤ x)%Qc → (0 ≤ round2 x)%Qc.
Proof.
  intros Hx. unfold round2, Qcdiv. apply Qcmult_nonneg_nonneg; [|done].
  rewrite <- Z2Qc_inj_0. apply (proj1 (Z2Qc_inj_le _ _)).
  assert (Hscaled : (0 ≤ x * Qc_of_Z 100)%Qc)
    by (by apply Qcmult_nonneg_nonneg).
  assert (Hfloor : Qfloor (0%Qc) ≤ Qfloor (x * Qc_of_Z 100)%Qc)
    by exact (Qfloor_resp_le _ _ Hscaled).
  change (Qfloor (0%Qc)) with 0 in Hfloor.
  unfold round_half_even. repeat case_decide; try lia.
  destruct (Z.even _); lia.
Qed.

(** None of the six figures that [calculate_store_metrics] reports is
    negative. *)
Theorem metrics_nonneg (d : Database) (sid : string)
    (current_time : option Z) (m : Metrics) :
  calculate_store_metrics tzdb d sid current_time = Ok m →
  (0 ≤ uptime_last_hour m)%Qc ∧ (0 ≤ uptime_last_day m)%Qc
  ∧ (0 ≤ uptime_last_week m)%Qc ∧ (0 ≤ downtime_last_hour m)%Qc
  ∧ (0 ≤ downtime_last_day m)%Qc ∧ (0 ≤ downtime_last_week m)%Qc.
Proof.
  unfold calculate_store_metrics.
  destruct current_time as [t|]; cbn [from_option mbind result_bind]; [|done].
  destruct (interpolate_status_for_period tzdb d sid (t - HOUR) _ _ _)
    as [[up_1h down_1h]|] eqn:H1; cbn [mbind result_bind]; [|done].
  destruct (interpolate_status_for_period tzdb d sid (t - DAY) _ _ _)
    as [[up_1d down_1d]|] eqn:H2; cbn [mbind result_bind]; [|done].
  destruct (interpolate_status_for_period tzdb d sid (t - WEEK) _ _ _)
    as [[up_1w down_1w]|] eqn:H3; cbn [mbind result_bind]; [|done].
  intros [= <-]. simpl.
  apply interpolate_totals_nonneg in H1 as [? ?].
  apply interpolate_totals_nonneg in H2 as [? ?].
  apply interpolate_totals_nonneg in H3 as [? ?].
  repeat split; apply round2_nonneg; try done;
    by apply Qcmult_nonneg_nonneg.
Qed.

End Uptime.

Lemma uptime_needs_active_observation_witness :
  ∃ downtime,
    interpolate_status_for_period sample_tzdb sample_db "lost"
      (at_time jan25 17 13 22) (at_time jan25 18 13 22) "UTC" default_hours
    = Ok (0%Qc, downtime).
Proof.
  destruct (interpolate_status_for_period sample_tzdb sample_db "lost"
      (at_time jan25 17 13 22) (at_time jan25 18 13 22) "UTC" default_hours)
    as [[uptime downtime]|e] eqn:Hrun.
  - exists downtime. f_equal. f_equal.
    apply (uptime_needs_active_observation sample_tzdb sample_db "lost"
             (at_time jan25 17 13 22) (at_time jan25 18 13 22) "UTC"%string
             default_hours uptime downtime); [|exact Hrun].
    intros r Hr Hsid _.
    repeat (apply elem_of_cons in Hr as [->|Hr]; [discriminate|]).
    by apply elem_of_nil in Hr.
  - vm_compute in Hrun. discriminate.
Defined.

Lemma metrics_nonneg_witness :
  ∃ m, calculate_store_metrics sample_tzdb sample_db "north"
         (Some (at_time jan25 18 13 22)) = Ok m
       ∧ (0 ≤ uptime_last_hour m)%Qc ∧ (0 ≤ downtime_last_week m)%Qc.
Proof.
  destruct (calculate_store_metrics sample_tzdb sample_db "north"
              (Some (at_time jan25 18 13 22))) as [m|e] eqn:Hrun.
  - exists m. split; [done|].
    destruct (metrics_nonneg sample_tzdb sample_db "north"
                (Some (at_time jan25 18 13 22)) m Hrun)
      as (H1 & _ & _ & _ & _ & H6).
    by split.
  - vm_compute in Hrun. discriminate.
Defined.

(** ** Same-day windows: a bound in every constant-offset zone, and
       exactness in UTC *)

Lemma minutes_of_le (a b : Z) : a ≤ b → (minutes_of a ≤ minutes_of b)%Qc.
Proof.
  intros Hle. replace b with (a + (b - a)) by lia.
  rewrite minutes_of_add.
  rewrite <- (Qcplus_0_r (minutes_of a)) at 1.
  apply Qcplus_le_mono_l, minutes_of_nonneg. lia.
Qed.

Lemma local_date_of_fixed_zone_div (off current_date : Z) :
  local_date_of (fixed_zone off) current_date = current_date + off `div` DAY.
Proof.
  unfold local_date_of, combine, date_of, dt_time_min, dt_time; simpl.
  match goal with
  | |- ?x `div` DAY = _ => replace x with (off + current_date * DAY) by lia
  end.
  rewrite Z.div_add by done. lia.
Qed.

(** A same-day window lies in the 24 hours that begin when its local date
    begins, so its part in the range is at most the part of those 24 hours
    in the range. *)
Lemma overlap_in_slot (off : Z) (hours : gmap Z (Z * Z))
    (start_time end_time current_date : Z) :
  same_day_hours hours →
  0 ≤ spec_window_overlap (fixed_zone off) hours start_time end_time
        (local_date_of (fixed_zone off) current_date)
    ≤ Z.max 0 (Z.min end_time ((current_date + 1) * DAY - off `mod` DAY)
               - Z.max start_time (current_date * DAY - off `mod` DAY)).
Proof.
  intros Hsame. unfold spec_window_overlap.
  rewrite local_date_of_fixed_zone_div.
  destruct (hours !! _) as [[bh_start bh_end]|] eqn:Hrow; [|lia].
  destruct (Hsame _ _ _ Hrow) as (Hs & Hse & He).
  unfold business_window. rewrite decide_False by lia.
  pose proof (Z.div_mod off DAY ltac:(done)) as Hoff.
  unfold combine; simpl. unfold DAY, HOUR, MINUTE, SECOND in *. lia.
Qed.

Lemma visited_business_time_bound (off : Z) (hours : gmap Z (Z * Z))
    (start_time end_time : Z) :
  same_day_hours hours →
  ∀ (n : nat) (m : Z),
    0 ≤ visited_business_time (fixed_zone off) hours start_time end_time
          (seqZ m (Z.of_nat n))
      ≤ Z.max 0 (Z.min end_time ((m + Z.of_nat n) * DAY - off `mod` DAY)
                 - Z.max start_time (m * DAY - off `mod` DAY)).
Proof.
  intros Hsame. unfold visited_business_time.
  induction n as [|n IH]; intros m.
  - rewrite seqZ_nil by lia. simpl. lia.
  - rewrite seqZ_cons by lia. rewrite fmap_cons. cbn [foldr].
    replace (Z.pred (Z.of_nat (S n))) with (Z.of_nat n) by lia.
    specialize (IH (Z.succ m)).
    pose proof (overlap_in_slot off hours start_time end_time m Hsame) as Hm.
    unfold DAY, HOUR, MINUTE, SECOND in *. lia.
Qed.

(** The windows of the dates before and after the range do not meet it, in
    UTC and for same-day windows. *)
Lemma overlap_outside_range (hours : gmap Z (Z * Z))
    (start_time end_time local_date : Z) :
  same_day_hours hours →
  local_date < date_of start_time ∨ date_of end_time < local_date →
  spec_window_overlap (fixed_zone 0) hours start_time end_time local_date = 0.
Proof.
  intros Hsame Hout. unfold spec_window_overlap.
  destruct (hours !! _) as [[bh_start bh_end]|] eqn:Hrow; [|done].
  destruct (Hsame _ _ _ Hrow) as (Hs & Hse & He).
  unfold business_window. rewrite decide_False by lia.
  destruct (local_time_split start_time) as [Hstart Hstart'].
  destruct (local_time_split end_time) as [Hend Hend'].
  unfold combine; simpl. unfold DAY, HOUR, MINUTE, SECOND in *. lia.
Qed.

Lemma sum_fmap_app (f : Z → Z) (l1 l2 : list Z) :
  foldr Z.add 0 (f <$> l1 ++ l2)
  = foldr Z.add 0 (f <$> l1) + foldr Z.add 0 (f <$> l2).
Proof.
  induction l1 as [|x l1 IH]; [done|].
  rewrite <- app_comm_cons, !fmap_cons. cbn [foldr]. rewrite IH. lia.
Qed.

Lemma sum_fmap_zero (f : Z → Z) (l : list Z) :
  Forall (λ x, f x = 0) l → foldr Z.add 0 (f <$> l) = 0.
Proof.
  induction 1 as [|x l Hx _ IH]; [done|].
  rewrite fmap_cons. cbn [foldr]. lia.
Qed.

Lemma visited_business_time_utc (hours : gmap Z (Z * Z))
    (start_time end_time : Z) :
  same_day_hours hours →
  date_of start_time ≤ date_of end_time →
  visited_business_time (fixed_zone 0) hours start_time end_time
    (seqZ (date_of start_time) (date_of end_time - date_of start_time + 1))
  = spec_business_time (fixed_zone 0) hours start_time end_time.
Proof.
  intros Hsame Hdates. unfold visited_business_time, spec_business_time.
  set (ds := date_of start_time) in *. set (de := date_of end_time) in *.
  replace (de - ds + 5) with (2 + ((de - ds + 1) + 2)) by lia.
  rewrite (seqZ_app (ds - 2) 2), (seqZ_app (ds - 2 + 2) (de - ds + 1) 2) by lia.
  rewrite !sum_fmap_app.
  rewrite (sum_fmap_zero _ (seqZ (ds - 2) 2)), (sum_fmap_zero _ (seqZ _ 2)).
  - replace (ds - 2 + 2) with ds by lia.
    rewrite Z.add_0_l, Z.add_0_r. f_equal. apply list_fmap_ext.
    intros _ cd _. by rewrite local_date_of_fixed_zone_div, Z.add_0_r.
  - apply Forall_seqZ. intros cd Hcd.
    apply overlap_outside_range; [done|]. fold ds de. lia.
  - apply Forall_seqZ. intros cd Hcd.
    apply overlap_outside_range; [done|]. fold ds de. lia.
Qed.

Section SameDayWindows.

Variable tzdb : string → option tzinfo.

(** For a store in a zone of constant offset whose windows all open and
    close on the same day, the uptime and the downtime returned for a range
    add up to no more than the length of the range. *)
Theorem same_day_total_bounded (off : Z) (d : Database) (sid : string)
    (start_time end_time : Z) (timezone_str : string)
    (hours : gmap Z (Z * Z)) (uptime downtime : Qc) :
  tzdb timezone_str = Some (fixed_zone off) →
  same_day_hours hours →
  start_time ≤ end_time →
  interpolate_status_for_period tzdb d sid start_time end_time timezone_str
    hours = Ok (uptime, downtime) →
  (uptime + downtime ≤ minutes_of (end_time - start_time) / Qc_of_Z 60)%Qc.
Proof.
  intros Hzone Hsame Hrange Hrun.
  destruct (query_status_records d sid start_time end_time) as [|r rs] eqn:Hq.
  - rewrite interpolate_no_records in Hrun by done.
    injection Hrun as <- <-. rewrite Qcplus_0_l.
    unfold Qcdiv. apply Qcmult_nonneg_nonneg; [|done].
    apply minutes_of_nonneg. lia.
  - destruct (interpolate_total tzdb (fixed_zone off) d sid start_time end_time
                timezone_str hours Hzone) as (up & down & Hrun' & Hsum);
      [by rewrite Hq|].
    rewrite Hrun in Hrun'. injection Hrun' as <- <-. rewrite Hsum.
    unfold Qcdiv. apply Qcmult_le_mono_nonneg_r; [done|].
    apply minutes_of_le.
    assert (Hdates : date_of start_time ≤ date_of end_time)
      by (apply (query_status_records_dates d sid); by rewrite Hq).
    pose proof (visited_business_time_bound off hours start_time end_time
                  Hsame
                  (Z.to_nat (date_of end_time - date_of start_time + 1))
                  (date_of start_time)) as Hbound.
    rewrite Z2Nat.id in Hbound by lia. lia.
Qed.

(** In UTC, for a store whose windows all open and close on the same day, a
    range that holds an observation has uptime plus downtime equal to the
    business hours in the range. *)
Theorem utc_same_day_total_exact (d : Database) (sid : string)
    (start_time end_time : Z) (timezone_str : string) (hours : gmap Z (Z * Z)) :
  tzdb timezone_str = Some (fixed_zone 0) →
  same_day_hours hours →
  query_status_records d sid start_time end_time ≠ [] →
  ∃ uptime downtime,
    interpolate_status_for_period tzdb d sid start_time end_time timezone_str
      hours = Ok (uptime, downtime)
    ∧ (uptime + downtime)%Qc
      = (minutes_of (spec_business_time (fixed_zone 0) hours start_time
                       end_time)
         / Qc_of_Z 60)%Qc.
Proof.
  intros Hzone Hsame Hrecords.
  destruct (interpolate_total tzdb (fixed_zone 0) d sid start_time end_time
              timezone_str hours Hzone Hrecords)
    as (up & down & Hrun & Hsum).
  exists up, down. split; [done|].
  rewrite Hsum, visited_business_time_utc; [done|done|].
  by apply (query_status_records_dates d sid).
Qed.

End SameDayWindows.

Lemma default_hours_same_day : same_day_hours default_hours.
Proof.
  intros day bh_start bh_end Hrow. unfold default_hours in Hrow.
  apply elem_of_list_to_map_2, list_elem_of_fmap in Hrow as (i & Hi & _).
  injection Hi as _ -> ->. by repeat split.
Qed.

Lemma same_day_total_bounded_witness :
  ∃ uptime downtime,
    interpolate_status_for_period sample_tzdb sample_db "west"
      (at_time (jan25 - 1) 18 13 22) (at_time jan25 18 13 22) "Etc/GMT+6"
      default_hours = Ok (uptime, downtime)
    ∧ (uptime + downtime ≤ Qc_of_Z 24)%Qc.
Proof.
  destruct (interpolate_status_for_period sample_tzdb sample_db "west"
      (at_time (jan25 - 1) 18 13 22) (at_time jan25 18 13 22) "Etc/GMT+6"
      default_hours) as [[uptime downtime]|e] eqn:Hrun.
  - exists uptime, downtime. split; [done|].
    pose proof (same_day_total_bounded sample_tzdb (-6 * HOUR) sample_db "west"
                  (at_time (jan25 - 1) 18 13 22) (at_time jan25 18 13 22)
                  "Etc/GMT+6"%string default_hours uptime downtime eq_refl
                  default_hours_same_day ltac:(discriminate) Hrun) as Hbound.
    replace (Qc_of_Z 24)
      with (minutes_of (at_time jan25 18 13 22 - at_time (jan25 - 1) 18 13 22)
            / Qc_of_Z 60)%Qc by (by apply Qc_is_canon).
    exact Hbound.
  - vm_compute in Hrun. discriminate.
Defined.

Lemma utc_same_day_total_exact_witness :
  ∃ uptime downtime,
    interpolate_status_for_period sample_tzdb sample_db "north"
      (at_time jan25 17 13 22) (at_time jan25 18 13 22) "UTC" default_hours
    = Ok (uptime, downtime)
    ∧ (uptime + downtime)%Qc = 1%Qc.
Proof.
  destruct (utc_same_day_total_exact sample_tzdb sample_db "north"
              (at_time jan25 17 13 22) (at_time jan25 18 13 22) "UTC"
              default_hours eq_refl default_hours_same_day)
    as (uptime & downtime & Hrun & Hsum).
  - vm_compute. discriminate.
  - exists uptime, downtime. split; [exact Hrun|].
    rewrite Hsum. by apply Qc_is_canon.
Defined.

(** ** The metrics of a store depend on its own rows only *)

Lemma query_status_records_own_rows (d1 d2 : Database) (sid : string)
    (start_time end_time : Z) :
  filter (λ r, ss_store_id r = sid) (store_status d1)
    = filter (λ r, ss_store_id r = sid) (store_status d2) →
  query_status_records d1 sid start_time end_time
  = query_status_records d2 sid start_time end_time.
Proof.
  intros Hrows. unfold query_status_records. f_equal.
  assert (Hsplit : ∀ l : list StoreStatus,
    filter (λ r, ss_store_id r = sid ∧
                 start_time ≤ timestamp_utc r ∧ timestamp_utc r ≤ end_time) l
    = filter (λ r, start_time ≤ timestamp_utc r ∧ timestamp_utc r ≤ end_time)
             (filter (λ r, ss_store_id r = sid) l)).
  { intros l. rewrite list_filter_filter. apply list_filter_iff. tauto. }
  by rewrite !Hsplit, Hrows.
Qed.

Section OwnRows.

Variable tzdb : string → option tzinfo.

(** Two databases that hold the same observations, business hours and zone
    rows for a store give it the same metrics, whatever they hold for other
    stores. *)
Theorem calculate_store_metrics_own_rows (d1 d2 : Database) (sid : string)
    (current_time : option Z) :
  filter (λ r, ss_store_id r = sid) (store_status d1)
    = filter (λ r, ss_store_id r = sid) (store_status d2) →
  filter (λ r, bh_store_id r = sid) (business_hours d1)
    = filter (λ r, bh_store_id r = sid) (business_hours d2) →
  filter (λ r, tz_store_id r = sid) (store_timezone d1)
    = filter (λ r, tz_store_id r = sid) (store_timezone d2) →
  calculate_store_metrics tzdb d1 sid current_time
  = calculate_store_metrics tzdb d2 sid current_time.
Proof.
  intros Hstatus Hhours Hzone.
  assert (Hinterp : ∀ start_time end_time timezone_str hours,
    interpolate_status_for_period tzdb d1 sid start_time end_time timezone_str
      hours
    = interpolate_status_for_period tzdb d2 sid start_time end_time
        timezone_str hours).
  { intros. unfold interpolate_status_for_period.
    by rewrite (query_status_records_own_rows d1 d2). }
  unfold calculate_store_metrics, get_store_timezone, get_business_hours.
  rewrite Hhours, Hzone. destruct current_time as [t|]; [|done].
  cbn [from_option mbind result_bind]. by rewrite !Hinterp.
Qed.

End OwnRows.

Lemma calculate_store_metrics_own_rows_witness :
  calculate_store_metrics sample_tzdb sample_db "north"
    (Some (at_time jan25 18 13 22))
  = calculate_store_metrics sample_tzdb
      {| store_status := [observation "north" (at_time jan25 17 43 22) "active"];
         business_hours := [];
         store_timezone := [zone_row "north" "UTC"];
         reports := ∅ |}
      "north" (Some (at_time jan25 18 13 22)).
Proof.
  by apply calculate_store_metrics_own_rows.
Defined.

(** ** [find_csv_file] *)

(** [find_csv_file] returns the path of the first candidate name that
    exists under [data/], and nothing exactly when none of them exists. *)
Theorem find_csv_file_first (disk : gset string) (possible_names : list string) :
  match find_csv_file disk possible_names with
  | Some path =>
    ∃ before name after,
      possible_names = before ++ name :: after
      ∧ path = ("data/" +:+ name)%string
      ∧ path ∈ disk
      ∧ ∀ n, n ∈ before → ("data/" +:+ n)%string ∉ disk
  | None => ∀ n, n ∈ possible_names → ("data/" +:+ n)%string ∉ disk
  end.
Proof.
  induction possible_names as [|name names IH]; simpl.
  - intros n Hn. by apply elem_of_nil in Hn.
  - case_decide as Hexists.
    + exists [], name, names. repeat split; [done|].
      intros n Hn. by apply elem_of_nil in Hn.
    + destruct (find_csv_file disk names) as [path|].
      * destruct IH as (before & name' & after & -> & -> & Hin & Hfirst).
        exists (name :: before), name', after. repeat split; [done|].
        intros n Hn. apply elem_of_cons in Hn as [->|Hn]; [done|].
        by apply Hfirst.
      * intros n Hn. apply elem_of_cons in Hn as [->|Hn]; [done|].
        by apply IH.
Qed.

(** ** The endpoints and the job *)

Lemma csv_path_not_empty (report_id : string) : csv_path report_id ≠ EmptyString.
Proof. unfold csv_path. discriminate. Qed.

Lemma get_report_running (w : World) (report_id : string) (report : Report) :
  reports (db w) !! report_id = Some report →
  report_status report = "Running"%string →
  get_report w report_id = StatusJson "Running".
Proof.
  intros Hjob Hstatus. unfold get_report. by rewrite Hjob, Hstatus.
Qed.

Lemma get_report_complete (w : World) (report_id : string) (report : Report) :
  reports (db w) !! report_id = Some report →
  report_status report = "Complete"%string →
  file_path report = Some (csv_path report_id) →
  is_Some (files w !! csv_path report_id) →
  get_report w report_id
  = FileResponse (csv_path report_id) "text/csv"
      ("store_report_" +:+ report_id +:+ ".csv")%string.
Proof.
  intros Hjob Hstatus Hpath Hfile. unfold get_report, artifact_on_disk.
  rewrite Hjob, Hstatus, Hpath.
  rewrite decide_False by done. rewrite decide_True by done.
  rewrite decide_True; [done|]. split; [apply csv_path_not_empty|done].
Qed.

Lemma get_report_failed (w : World) (report_id : string) (report : Report) :
  reports (db w) !! report_id = Some report →
  report_status report = "Failed"%string →
  get_report w report_id = HTTPException 500 "Report generation failed".
Proof.
  intros Hjob Hstatus. unfold get_report. by rewrite Hjob, Hstatus.
Qed.

(** A call of [trigger_report] that commits returns the id it drew, leaves
    the job Running for [get_report], adds its task after the pending ones
    and changes the answer of [get_report] for no other id; a call that
    raises does so because the id is taken. *)
Theorem trigger_report_then_get_report (uuid : string) (w : World) :
  match trigger_report uuid w with
  | Ok (w', report_id) =>
    report_id = uuid
    ∧ reports (db w) !! uuid = None
    ∧ get_report w' report_id = StatusJson "Running"
    ∧ tasks w' = tasks w ++ [uuid]
    ∧ ∀ other, other ≠ uuid → get_report w' other = get_report w other
  | Raise e => e = IntegrityError ∧ is_Some (reports (db w) !! uuid)
  end.
Proof.
  unfold trigger_report.
  destruct (reports (db w) !! uuid) as [r|] eqn:Hfresh; [by eauto|].
  split; [done|]. split; [done|]. split; [|split; [done|]].
  - apply (get_report_running _ _
             {| report_status := "Running"; file_path := None |}); [|done].
    simpl. by rewrite lookup_insert_eq.
  - intros other Hother. unfold get_report, artifact_on_disk. simpl.
    by rewrite lookup_insert_ne.
Qed.

Section JobRuns.

Variable tzdb : string → option tzinfo.

(** [generate_report_async] touches nothing but the row of its job and the
    file of its job: the store data, the pending tasks, the other rows and
    the other files are as before, whether the write succeeds or not, and
    for an unknown job nothing changes at all. *)
Theorem generate_report_async_frame (io_ok : bool) (w : World)
    (report_id : string) :
  let w' := generate_report_async tzdb io_ok w report_id in
  store_status (db w') = store_status (db w)
  ∧ business_hours (db w') = business_hours (db w)
  ∧ store_timezone (db w') = store_timezone (db w)
  ∧ tasks w' = tasks w
  ∧ (∀ other, other ≠ report_id →
       reports (db w') !! other = reports (db w) !! other)
  ∧ (∀ path, path ≠ csv_path report_id → files w' !! path = files w !! path)
  ∧ (reports (db w) !! report_id = None → w' = w).
Proof.
  unfold generate_report_async.
  destruct (reports (db w) !! report_id) as [r|] eqn:Hjob; [|done].
  destruct io_ok; simpl; repeat split; try done.
  - intros other Hother. by rewrite lookup_insert_ne.
  - intros path Hpath. by rewrite lookup_insert_ne.
  - intros other Hother. by rewrite lookup_insert_ne.
Qed.

(** After [generate_report_async] has run for a job, [get_report] serves
    the file [reports/<id>.csv] under the name [store_report_<id>.csv] when
    the write succeeded, and answers 500 "Report generation failed" when it
    did not. *)
Theorem generate_then_get_report (w : World) (report_id : string)
    (report : Report) :
  reports (db w) !! report_id = Some report →
  get_report (generate_report_async tzdb true w report_id) report_id
  = FileResponse (csv_path report_id) "text/csv"
      ("store_report_" +:+ report_id +:+ ".csv")%string
  ∧ get_report (generate_report_async tzdb false w report_id) report_id
    = HTTPException 500 "Report generation failed".
Proof.
  intros Hjob. unfold generate_report_async. rewrite Hjob. split.
  - apply (get_report_complete _ _
             {| report_status := "Complete";
                file_path := Some (csv_path report_id) |});
      simpl; rewrite ?lookup_insert_eq; done.
  - apply (get_report_failed _ _
             {| report_status := "Failed"; file_path := file_path report |});
      simpl; rewrite ?lookup_insert_eq; done.
Qed.

End JobRuns.

Lemma generate_then_get_report_witness :
  get_report (generate_report_async sample_tzdb true triggered_world "job-1")
    "job-1"
  = FileResponse "reports/job-1.csv" "text/csv" "store_report_job-1.csv".
Proof.
  by destruct (generate_then_get_report sample_tzdb triggered_world "job-1"
                 running_job eq_refl) as [-> _].
Defined.

(** ** Runs that begin with an empty [reports] table *)

Section FreshRuns.

Variable tzdb : string → option tzinfo.

Lemma generate_report_async_keeps_files (io_ok : bool) (w : World)
    (report_id path : string) :
  is_Some (files w !! path) →
  is_Some (files (generate_report_async tzdb io_ok w report_id) !! path).
Proof.
  intros Hfile. unfold generate_report_async.
  destruct (reports (db w) !! report_id); [|done].
  destruct io_ok; simpl; [|done].
  destruct (decide (csv_path report_id = path)) as [->|Hne].
  - rewrite lookup_insert_eq. by eexists.
  - by rewrite lookup_insert_ne.
Qed.

Lemma elem_of_without_task (pre post : list string) (rid id : string) :
  id ≠ rid → id ∈ pre ++ rid :: post ↔ id ∈ pre ++ post.
Proof.
  intros Hne. rewrite !elem_of_app, elem_of_cons. tauto.
Qed.

Lemma step_job_consistent (w w' : World) :
  pending_running w → job_consistent w → step tzdb w w' → job_consistent w'.
Proof.
  intros [Hnodup Hrunning] Hcons Hstep.
  destruct Hstep as [uuid w w' rid Htrigger|io_ok rid pre post w Htasks|rid w r _];
    [| |done].
  - apply trigger_report_inv in Htrigger
      as (Hfresh & Hreports & Htasks' & Hfiles).
    intros id r. rewrite Hreports, Htasks', Hfiles.
    destruct (decide (uuid = id)) as [->|Hne].
    + rewrite lookup_insert_eq. intros [= <-]. left. simpl.
      split; [done|]. split; [done|]. apply elem_of_app. right. by left.
    + rewrite lookup_insert_ne by done. intros Hr.
      assert (Hnew : id ∉ tasks w → id ∉ tasks w ++ [uuid]).
      { intros Hnin. rewrite elem_of_app, list_elem_of_singleton.
        intros [?|?]; [done|congruence]. }
      destruct (Hcons id r Hr) as [(?&?&?)|[(?&?&?&?)|(?&?&?)]].
      * left. repeat split; try done. apply elem_of_app. by left.
      * right. left. repeat split; try done. by apply Hnew.
      * right. right. repeat split; try done. by apply Hnew.
  - assert (Hrid : rid ∈ tasks w).
    { rewrite Htasks. apply elem_of_app. right. by left. }
    destruct (Hrunning rid Hrid) as (r0 & Hr0 & Hstatus0).
    assert (Hpath0 : file_path r0 = None).
    { destruct (Hcons rid r0 Hr0) as [(_&?&_)|[(?&_)|(?&_)]];
        [done|congruence|congruence]. }
    destruct (generate_report_async_reports tzdb io_ok (take_task pre post w)
                rid r0 Hr0) as (Htasks' & r' & Hreports & Hr').
    rewrite Htasks in Hnodup.
    apply NoDup_app in Hnodup as (Hpre & Hdisj & Hpost).
    apply NoDup_cons in Hpost as [Hridpost Hpost].
    assert (Hgone : rid ∉ pre ++ post).
    { rewrite elem_of_app. intros [Hin|Hin]; [|done].
      apply (Hdisj rid Hin). by left. }
    intros id r. rewrite Hreports, Htasks'. simpl.
    destruct (decide (rid = id)) as [<-|Hne].
    + rewrite lookup_insert_eq. intros [= <-].
      destruct Hr' as [[-> Hfile]| ->].
      * right. left. by repeat split.
      * right. right. by repeat split.
    + rewrite lookup_insert_ne by done. intros Hr.
      pose proof (elem_of_without_task pre post rid id ltac:(congruence))
        as Hiff.
      destruct (Hcons id r Hr) as [(?&?&Hin)|[(?&?&Hfile&Hnin)|(?&?&Hnin)]].
      * left. repeat split; try done. apply Hiff. by rewrite <- Htasks.
      * right. left. repeat split; try done.
        -- by apply generate_report_async_keeps_files.
        -- rewrite <- Hiff, <- Htasks. done.
      * right. right. repeat split; try done.
        rewrite <- Hiff, <- Htasks. done.
Qed.

Lemma fresh_run_consistent (w : World) :
  fresh_run tzdb w → pending_running w ∧ job_consistent w.
Proof.
  intros (w0 & Htasks0 & Hreports0 & Hrun).
  apply (rtc_ind_r (R := step tzdb)
           (λ w, pending_running w ∧ job_consistent w) w0);
    [|clear w Hrun|exact Hrun].
  - split; [by apply initial_pending_running|].
    intros id r. by rewrite Hreports0, lookup_empty.
  - intros w1 w2 _ Hstep [Hpending Hcons]. split.
    + by eapply step_pending_running.
    + by eapply step_job_consistent.
Qed.

(** In a run that begins with an empty [reports] table, [get_report]
    answers 404 for an id that was never drawn, "Running" exactly for the
    jobs whose task is still pending, the file [reports/<id>.csv] for every
    Complete job, and 500 "Report generation failed" for every Failed job.
    It never answers "Report file not found": the file is written before
    the row is set to Complete. *)
Theorem fresh_run_get_report (w : World) (report_id : string) :
  fresh_run tzdb w →
  match reports (db w) !! report_id with
  | None =>
    (report_id ∉ tasks w)
    ∧ get_report w report_id = HTTPException 404 "Report not found"
  | Some report =>
    (report_id ∈ tasks w
     ∧ report_status report = "Running"%string
     ∧ get_report w report_id = StatusJson "Running")
    ∨ ((report_id ∉ tasks w)
       ∧ report_status report = "Complete"%string
       ∧ get_report w report_id
         = FileResponse (csv_path report_id) "text/csv"
             ("store_report_" +:+ report_id +:+ ".csv")%string)
    ∨ ((report_id ∉ tasks w)
       ∧ report_status report = "Failed"%string
       ∧ get_report w report_id
         = HTTPException 500 "Report generation failed")
  end.
Proof.
  intros Hrun. apply fresh_run_consistent in Hrun as [[_ Hrunning] Hcons].
  destruct (reports (db w) !! report_id) as [r|] eqn:Hjob.
  - destruct (Hcons report_id r Hjob)
      as [(?&?&?)|[(?&?&?&?)|(?&?&?)]].
    + left. repeat split; try done. by eapply get_report_running.
    + right. left. repeat split; try done. by eapply get_report_complete.
    + right. right. repeat split; try done. by eapply get_report_failed.
  - split.
    + intros Hin. destruct (Hrunning report_id Hin) as (r & Hr & _). congruence.
    + unfold get_report. by rewrite Hjob.
Qed.

End FreshRuns.

Lemma fresh_run_get_report_witness :
  fresh_run sample_tzdb triggered_world
  ∧ get_report triggered_world "job-1" = StatusJson "Running".
Proof.
  assert (Hrun : fresh_run sample_tzdb triggered_world).
  { exists sample_world. split; [done|]. split; [done|].
    apply rtc_once.
    by apply (step_trigger sample_tzdb "job-1" sample_world triggered_world
                "job-1"). }
  split; [exact Hrun|].
  pose proof (fresh_run_get_report sample_tzdb triggered_world "job-1" Hrun)
    as Hget.
  by destruct Hget as [(_&_&?)|[(_&Hno&_)|(_&Hno&_)]].
Defined.

(** ** The stores of a report *)

Section ReportRows.

Variable tzdb : string → option tzinfo.

Lemma is_ok_calculate_store_metrics (d : Database) (sid : string) (t : Z) :
  is_ok (calculate_store_metrics tzdb d sid (Some t))
  ↔ is_Some (tzdb (get_store_timezone d sid))
    ∨ query_status_records d sid (t - WEEK) t = [].
Proof.
  destruct (tzdb (get_store_timezone d sid)) as [tz|] eqn:Hzone.
  - destruct (calculate_store_metrics_known_zone tzdb tz d sid t Hzone)
      as [m ->].
    split; [by left; eexists|done].
  - rewrite (calculate_store_metrics_unknown_zone tzdb d sid t Hzone).
    destruct (query_status_records d sid (t - WEEK) t) as [|r rs]; simpl.
    + split; [by right|done].
    + split; [done|]. by intros [[? [=]]|[=]].
Qed.

(** The report that [generate_report_async] writes has a row for a store
    exactly when the store has an observation and either the tz database
    knows its zone or it has no observation in the week before the latest
    timestamp of the data. *)
Theorem report_rows_membership (d : Database) (sid : string) :
  sid ∈ store_id <$>
          collect_report_data tzdb d (get_max_timestamp d)
            (remove_dups (ss_store_id <$> store_status d))
  ↔ (∃ r, r ∈ store_status d ∧ ss_store_id r = sid)
    ∧ (is_Some (tzdb (get_store_timezone d sid))
       ∨ ∀ t, get_max_timestamp d = Some t →
              query_status_records d sid (t - WEEK) t = []).
Proof.
  rewrite collect_report_data_store_ids, list_elem_of_filter.
  rewrite elem_of_remove_dups, list_elem_of_fmap.
  split.
  - intros [Hok (r & -> & Hr)]. split; [by exists r|].
    destruct (get_max_timestamp d) as [t|] eqn:Hmax.
    + apply is_ok_calculate_store_metrics in Hok as [?|Hnil]; [by left|].
      right. by intros t' [= <-].
    + unfold get_max_timestamp in Hmax.
      destruct (store_status d); [by apply elem_of_nil in Hr|done].
  - intros [(r & Hr & <-) Hzone]. split; [|by exists r].
    destruct (get_max_timestamp d) as [t|] eqn:Hmax.
    + apply is_ok_calculate_store_metrics.
      destruct Hzone as [?|Hnil]; [by left|right; by apply Hnil].
    + unfold get_max_timestamp in Hmax.
      destruct (store_status d); [by apply elem_of_nil in Hr|done].
Qed.

End ReportRows.
